(** * Crisis risk assessment and escalation engine

    A shallow embedding of [services/safety_service.py] (class
    [SafetyService]) and the properties its specification states about it.

    Conventions of the embedding.
    - Python [int] is [Z]; Python numbers that may be [int] or [float]
      (severities such as [2.5]) are exact rationals [Q].  Module
      [Binary64] at the end of the definitions evaluates the same score in
      IEEE binary64 and shows that truncating it gives the same integer on
      every value the analysis can produce.
    - Python [str] is [string], holding the UTF-8 bytes of the text.  A
      keyword occurs in a message as a run of code points exactly when its
      UTF-8 bytes occur in the message's UTF-8 bytes.
    - A dict with fixed keys is a record; a dict built by insertion whose
      order is read back (the keyword matches) is an association list; the
      per-session dict [session_crisis_history] is a [gmap string _].
    - A coroutine that can raise is a function in the state-and-exception
      monad [M]; [await] is its bind. *)

From Stdlib Require Import ZArith QArith Qminmax Qround Lqa Ascii String.
From Stdlib Require Import Floats Uint63.
From stdpp Require Import gmap strings list.

Open Scope string_scope.
Open Scope list_scope.
Open Scope Z_scope.

(** ** Strings: [str.lower] and the [in] operator *)

(** [str.lower] on the ASCII range.  The keyword tables hold Arabic letters
    and spaces only, which have no case, so whatever Python's Unicode
    lowering does to other cased letters cannot create or destroy an
    occurrence of a keyword. *)
Definition lower_ascii (c : ascii) : ascii :=
  let n := nat_of_ascii c in
  if ((65 <=? n)%nat && (n <=? 90)%nat)%bool then ascii_of_nat (n + 32) else c.

Fixpoint lower (s : string) : string :=
  match s with
  | EmptyString => EmptyString
  | String c s' => String (lower_ascii c) (lower s')
  end.

(** [contains kw s] is Python's [kw in s] on strings. *)
Fixpoint contains (kw s : string) : bool :=
  String.prefix kw s ||
  match s with
  | EmptyString => false
  | String _ s' => contains kw s'
  end.

(** [x in names] for a list of strings. *)
Definition str_in (x : string) (names : list string) : bool :=
  existsb (String.eqb x) names.

(** [xs[-n:]] for a positive literal [n]. *)
Definition last_n {A} (n : nat) (xs : list A) : list A :=
  drop (length xs - n) xs.

(** [len(xs)] *)
Definition len {A} (xs : list A) : Z := Z.of_nat (length xs).

(** [sum(1 for word in words if word in text)] *)
Definition count_in (words : list string) (text : string) : Z :=
  len (List.filter (fun word => contains word text) words).

(** ** Constants of [SafetyService.__init__] *)

Definition crisis_thresholds : list (string * Z) :=
  [("low", 3); ("medium", 5); ("high", 7); ("critical", 9)].

(** [self.crisis_thresholds[name]] for the four names of the table. *)
Definition threshold (name : string) : Z :=
  match List.find (fun kv => String.eqb name (fst kv)) crisis_thresholds with
  | Some kv => snd kv
  | None => 0
  end.

Definition crisis_keywords : list (string * list string) :=
  [
    ("suicide",
      ["انتحار"; "أقتل نفسي"; "أنهي حياتي"; "لا أريد العيش";
       "أموت"; "أريد أن أموت"; "ما عدت أريد العيش"; "انتهيت";
       "سأنهي هذا"; "أفضل أن أموت"; "الموت أفضل"; "لا فائدة"]);
    ("self_harm",
      ["أؤذي نفسي"; "أجرح نفسي"; "أضرب نفسي"; "أحرق نفسي";
       "أقطع نفسي"; "أعذب نفسي"; "أذية النفس"; "جروح";
       "أستحق الألم"; "أعاقب نفسي"]);
    ("hopelessness",
      ["لا أمل"; "ميؤوس"; "فقدت الأمل"; "لا فائدة";
       "مستحيل"; "لن يتحسن"; "انتهى الأمر"; "لا معنى";
       "فارغ"; "ضائع"; "لا أستطيع"; "عاجز"]);
    ("isolation",
      ["وحيد"; "لا أحد"; "منعزل"; "مهجور";
       "منسي"; "لا أحد يهتم"; "لا أحد يفهم"; "بمفردي";
       "معزول"]);
    ("substance_abuse",
      ["مخدرات"; "كحول"; "شرب"; "إدمان";
       "مدمن"; "حبوب"; "مواد"; "تعاطي";
       "سكران"; "مخمور"]);
    ("violence",
      ["أضرب"; "أعتدي"; "أؤذي الآخرين"; "عنف";
       "قتل"; "أقتل"; "أهدد"; "انتقام";
       "أدمر"; "أحطم"]);
    ("psychosis",
      ["أسمع أصوات"; "أرى أشياء"; "يتحدثون عني"; "يراقبونني";
       "مؤامرة"; "يتبعونني"; "أفكار غريبة"; "لست أنا"])
  ].

(** ** Keyword analysis *)

Record CategoryMatch := {
  cm_matches : list string;
  cm_count : Z;
  cm_severity : Q
}.

Record KeywordAnalysis := {
  matches : list (string * CategoryMatch);
  total_severity : Q;
  high_risk_categories : list string
}.

(** The [if category == ... elif ...] chain: the amount one matched keyword
    adds to its category's severity. *)
Definition category_weight (category : string) : Q :=
  if String.eqb category "suicide" then 3
  else if String.eqb category "self_harm" then 5 # 2
  else if String.eqb category "violence" then 5 # 2
  else if String.eqb category "psychosis" then 2
  else 1.

(** The inner [for keyword in keywords] loop, from the state
    [(matches, category_severity)]. *)
Definition scan_keywords (category : string) (message_lower : string)
    (keywords : list string) (acc : list string * Q) : list string * Q :=
  fold_left
    (fun '(found, category_severity) keyword =>
       if contains keyword message_lower
       then (found ++ [keyword], category_severity + category_weight category)%Q
       else (found, category_severity))
    keywords acc.

(** One round of the outer [for category, keywords in
    self.crisis_keywords.items()] loop, on the state
    [(keyword_matches, total_severity)]. *)
Definition scan_category (message_lower : string)
    (acc : list (string * CategoryMatch) * Q)
    (entry : string * list string) : list (string * CategoryMatch) * Q :=
  let '(keyword_matches, total) := acc in
  let '(category, keywords) := entry in
  let '(found, category_severity) :=
    scan_keywords category message_lower keywords ([], 0%Q) in
  match found with
  | [] => (keyword_matches, total)
  | _ :: _ =>
      (keyword_matches ++
         [(category, {| cm_matches := found;
                        cm_count := len found;
                        cm_severity := category_severity |})],
       (total + category_severity)%Q)
  end.

Definition scan_categories (message_lower : string)
    (table : list (string * list string))
    (acc : list (string * CategoryMatch) * Q)
    : list (string * CategoryMatch) * Q :=
  fold_left (scan_category message_lower) table acc.

(** The filter of the [high_risk_categories] comprehension. *)
Definition is_high_risk (item : string * CategoryMatch) : bool :=
  str_in (fst item) ["suicide"; "self_harm"; "violence"]
  && (0 <? cm_count (snd item)).

Definition _analyze_crisis_keywords (message : string) : KeywordAnalysis :=
  let message_lower := lower message in
  let '(keyword_matches, total) :=
    scan_categories message_lower crisis_keywords ([], 0%Q) in
  {| matches := keyword_matches;
     total_severity := Qmin 10 total;
     high_risk_categories :=
       map fst (List.filter is_high_risk keyword_matches) |}.

(** ** Pattern analysis *)

Record Patterns := {
  finality_statements : Z;
  goodbye_messages : Z;
  past_tense_future : Z;
  extreme_language : Z;
  isolation_expressions : Z;
  worthlessness : Z;
  burden_statements : Z
}.

(** [patterns.items()], in the order of the dict literal. *)
Definition pattern_items (p : Patterns) : list (string * Z) :=
  [("finality_statements", finality_statements p);
   ("goodbye_messages", goodbye_messages p);
   ("past_tense_future", past_tense_future p);
   ("extreme_language", extreme_language p);
   ("isolation_expressions", isolation_expressions p);
   ("worthlessness", worthlessness p);
   ("burden_statements", burden_statements p)].

Record PatternAnalysis := {
  patterns : Patterns;
  severity : Z;
  high_risk_patterns : list string
}.

Definition finality_words : list string :=
  ["آخر مرة"; "لن أعود"; "انتهى الأمر"; "لا رجعة"; "نهاية"].
Definition goodbye_words : list string :=
  ["وداع"; "مع السلامة إلى الأبد"; "لن نلتقي"; "اعتنوا بأنفسكم"].
Definition extreme_words : list string :=
  ["دائماً"; "أبداً"; "كل شيء"; "لا شيء"; "الأسوأ"; "مستحيل"].
Definition worthless_words : list string :=
  ["لا قيمة لي"; "عديم الفائدة"; "فاشل"; "لا أستحق"; "عبء"].

Definition pattern_severity (p : Patterns) : Z :=
  finality_statements p * 3 +
  goodbye_messages p * 3 +
  past_tense_future p * 2 +
  extreme_language p * 1 +
  isolation_expressions p * 2 +
  worthlessness p * 2 +
  burden_statements p * 2.

Definition _analyze_crisis_patterns (message : string) : PatternAnalysis :=
  let message_lower := lower message in
  let patterns :=
    {| finality_statements := count_in finality_words message_lower;
       goodbye_messages := count_in goodbye_words message_lower;
       past_tense_future := 0;
       extreme_language := count_in extreme_words message_lower;
       isolation_expressions := 0;
       worthlessness := count_in worthless_words message_lower;
       burden_statements := 0 |} in
  {| patterns := patterns;
     severity := Z.min 10 (pattern_severity patterns);
     high_risk_patterns :=
       map fst
         (List.filter
            (fun item =>
               (0 <? snd item) &&
               str_in (fst item)
                 ["finality_statements"; "goodbye_messages"; "burden_statements"])
            (pattern_items patterns)) |}.

(** ** Session state and the database collaborator *)

(** One entry of [session_crisis_history[session_id]]. *)
Module Event.
Record t := {
  timestamp : Z;
  crisis_level : Z;
  crisis_type : string
}.
End Event.

(** A row of the stored conversation, as [msg.get("user", "")] and
    [msg.get("emotional_state", "")] read it. *)
Record HistoryMsg := {
  user : string;
  emotional_state : string
}.

(** The [crisis_data] dict handed to [db_manager.log_crisis_event]. *)
Module CrisisData.
Record t := {
  session_id : string;
  timestamp : Z;
  crisis_level : Z;
  crisis_type : string;
  user_message : string;
  intervention_response : string;
  escalated : bool;
  follow_up_needed : bool
}.
End CrisisData.

(** A Python call either returns or raises; [Raise e] carries [str(e)]. *)
Inductive result (A : Type) : Type :=
  | Ok (a : A)
  | Raise (e : string).
Arguments Ok {A} a.
Arguments Raise {A} e.

(** [utils.database.DatabaseManager] is a collaborator outside this module:
    what its two calls answer is a parameter of the analysis. *)
Record DatabaseManager := {
  get_session_history : string -> result (list HistoryMsg);
  log_crisis_event : CrisisData.t -> result unit
}.

(** The mutable state an analysis touches: the service's own
    [session_crisis_history] and the crisis events the database accepted. *)
Record World := {
  session_crisis_history : gmap string (list Event.t);
  crisis_log : list CrisisData.t
}.

(** [self.session_crisis_history.get(session_id, [])] *)
Definition history_of (h : gmap string (list Event.t)) (session_id : string)
    : list Event.t :=
  default [] (h !! session_id).

(** ** Session context analysis *)

Record ContextAnalysis := {
  escalation_detected : bool;
  repeated_crisis_themes : Z;
  emotional_deterioration : bool;
  previous_interventions : Z;
  session_duration : Z
}.

Definition default_context : ContextAnalysis :=
  {| escalation_detected := false;
     repeated_crisis_themes := 0;
     emotional_deterioration := false;
     previous_interventions := 0;
     session_duration := 0 |}.

(** The two nested loops counting crisis keywords in the recent messages. *)
Definition count_crisis_indicators (recent_messages : list HistoryMsg) : Z :=
  fold_left
    (fun count msg =>
       let user_msg := lower (user msg) in
       fold_left
         (fun count keywords => count + count_in keywords user_msg)
         (map snd crisis_keywords) count)
    recent_messages 0.

Definition negative_emotions : list string :=
  ["sad"; "anxious"; "hopeless"; "angry"].

Definition _analyze_session_context (db : DatabaseManager)
    (tracked : gmap string (list Event.t))
    (session_id current_message : string) : ContextAnalysis :=
  let context := default_context in
  match get_session_history db session_id with
  | Raise _ => context
  | Ok [] => context
  | Ok history =>
      let recent_messages :=
        if 3 <=? len history then last_n 3 history else history in
      let crisis_indicators_count := count_crisis_indicators recent_messages in
      let emotions := map emotional_state history in
      let recent_negative :=
        len (List.filter (fun emotion => str_in emotion negative_emotions)
               (last_n 5 emotions)) in
      let session_crisis_data := history_of tracked session_id in
      {| escalation_detected := 2 <? crisis_indicators_count;
         repeated_crisis_themes := crisis_indicators_count;
         emotional_deterioration := 3 <=? recent_negative;
         previous_interventions := len session_crisis_data;
         session_duration := session_duration context |}
  end.

(** ** Crisis level, crisis type, urgency *)

(** [int(x)] on a number: truncation toward zero. *)
Definition to_int (x : Q) : Z := Z.quot (Qnum x) (Zpos (Qden x)).

(** The [context_score] accumulated by the four [if] statements. *)
Definition context_score (keyword_analysis : KeywordAnalysis)
    (context_analysis : ContextAnalysis) : Q :=
  let context_score := 0%Q in
  let context_score :=
    if escalation_detected context_analysis
    then (context_score + 2)%Q else context_score in
  let context_score :=
    if emotional_deterioration context_analysis
    then (context_score + 1)%Q else context_score in
  let context_score :=
    if 1 <? previous_interventions context_analysis
    then (context_score + 1)%Q else context_score in
  let high_risk_categories := high_risk_categories keyword_analysis in
  match high_risk_categories with
  | [] => context_score
  | _ :: _ =>
      (context_score + inject_Z (len high_risk_categories) * (3 # 2))%Q
  end.

Definition total_score (keyword_analysis : KeywordAnalysis)
    (pattern_analysis : PatternAnalysis)
    (context_analysis : ContextAnalysis) : Q :=
  let keyword_score := (total_severity keyword_analysis * (1 # 2))%Q in
  let pattern_score := (inject_Z (severity pattern_analysis) * (3 # 10))%Q in
  (keyword_score + pattern_score
   + context_score keyword_analysis context_analysis)%Q.

Definition _calculate_crisis_level (keyword_analysis : KeywordAnalysis)
    (pattern_analysis : PatternAnalysis)
    (context_analysis : ContextAnalysis) : Z :=
  Z.max 0
    (Z.min 10
       (to_int (total_score keyword_analysis pattern_analysis context_analysis))).

Definition _determine_crisis_type (keyword_analysis : KeywordAnalysis)
    (pattern_analysis : PatternAnalysis) : string :=
  let keyword_matches := map fst (matches keyword_analysis) in
  if str_in "suicide" keyword_matches then "suicide_risk"
  else if str_in "self_harm" keyword_matches then "self_harm_risk"
  else if str_in "violence" keyword_matches then "violence_risk"
  else if str_in "psychosis" keyword_matches then "mental_health_emergency"
  else if str_in "substance_abuse" keyword_matches then "substance_abuse"
  else if str_in "hopelessness" keyword_matches then "severe_depression"
  else if str_in "isolation" keyword_matches then "social_crisis"
  else
    let high_risk_patterns := high_risk_patterns pattern_analysis in
    if str_in "finality_statements" high_risk_patterns then "suicide_risk"
    else if str_in "goodbye_messages" high_risk_patterns then "suicide_risk"
    else "emotional_distress".

Definition _assess_urgency (crisis_level : Z) (crisis_type : string)
    (context_analysis : ContextAnalysis) : string :=
  let standard :=
    if escalation_detected context_analysis && (6 <=? crisis_level)
    then "urgent"
    else if 7 <=? crisis_level then "urgent"
    else if 5 <=? crisis_level then "moderate"
    else if 3 <=? crisis_level then "low"
    else "none" in
  if 9 <=? crisis_level then "immediate"
  else if str_in crisis_type
            ["suicide_risk"; "violence_risk"; "mental_health_emergency"]
  then (if 7 <=? crisis_level then "immediate"
        else if 5 <=? crisis_level then "urgent"
        else standard)
  else standard.

Definition _get_safety_recommendations (crisis_level : Z) (urgency : string)
    : list string :=
  if String.eqb urgency "immediate" then
    ["تدخل فوري مطلوب"; "تحويل للطوارئ النفسية";
     "عدم ترك المستخدم وحيداً"; "تفعيل بروتوكول الطوارئ"]
  else if String.eqb urgency "urgent" then
    ["مراقبة مستمرة مطلوبة"; "تحويل لمختص في أقرب وقت";
     "إشراك الأسرة إذا أمكن"; "متابعة خلال 24 ساعة"]
  else if String.eqb urgency "moderate" then
    ["تقييم دوري للحالة"; "تعزيز شبكة الدعم";
     "جدولة متابعة خلال أسبوع"; "توفير موارد المساعدة الذاتية"]
  else
    ["مواصلة الدعم العاطفي"; "مراقبة التطور"; "تعزيز آليات التأقلم الصحية"].

(** ** The verdict of [analyze_safety] *)

Record Indicators := {
  ind_keywords : KeywordAnalysis;
  ind_patterns : PatternAnalysis;
  ind_context : ContextAnalysis
}.

(** The dict [analyze_safety] returns.  The normal dict has [indicators] and
    [recommendations] and no [error]; the dict of the [except] branch has
    [error] and neither of the other two. *)
Record SafetyVerdict := {
  crisis_level : Z;
  crisis_type : string;
  urgency : string;
  indicators : option Indicators;
  recommendations : option (list string);
  error : option string;
  requires_intervention : bool;
  requires_escalation : bool
}.

(** ** Coroutines: state and exceptions *)

Definition M (A : Type) : Type := World -> result A * World.

Definition ret {A} (a : A) : M A := fun w => (Ok a, w).

Definition raise {A} (e : string) : M A := fun w => (Raise e, w).

Definition bind {A B} (c : M A) (k : A -> M B) : M B :=
  fun w =>
    match c w with
    | (Ok a, w') => k a w'
    | (Raise e, w') => (Raise e, w')
    end.

Notation "x <- c ;; k" := (bind c (fun x => k))
  (at level 100, c at next level, right associativity).

(** ** Session tracking and event logging *)

Definition _update_session_crisis_tracking (now : Z)
    (session_id : string) (crisis_level : Z) (crisis_type : string)
    (tracked : gmap string (list Event.t)) : gmap string (list Event.t) :=
  let tracked :=
    match tracked !! session_id with
    | None => <[session_id := []]> tracked
    | Some _ => tracked
    end in
  let tracked :=
    <[session_id :=
        history_of tracked session_id ++
        [{| Event.timestamp := now;
            Event.crisis_level := crisis_level;
            Event.crisis_type := crisis_type |}]]> tracked in
  if 10 <? len (history_of tracked session_id)
  then <[session_id := last_n 10 (history_of tracked session_id)]> tracked
  else tracked.

Definition crisis_data_of (now : Z) (session_id user_message : string)
    (safety_analysis : SafetyVerdict) : CrisisData.t :=
  {| CrisisData.session_id := session_id;
     CrisisData.timestamp := now;
     CrisisData.crisis_level := crisis_level safety_analysis;
     CrisisData.crisis_type := crisis_type safety_analysis;
     CrisisData.user_message := user_message;
     CrisisData.intervention_response := "";
     CrisisData.escalated := requires_escalation safety_analysis;
     CrisisData.follow_up_needed := requires_intervention safety_analysis |}.

Definition _log_crisis_event (db : DatabaseManager) (now : Z)
    (session_id user_message : string) (safety_analysis : SafetyVerdict)
    : M unit :=
  fun w =>
    let crisis_data := crisis_data_of now session_id user_message safety_analysis in
    match log_crisis_event db crisis_data with
    | Ok _ =>
        (Ok tt,
         {| session_crisis_history := session_crisis_history w;
            crisis_log := crisis_log w ++ [crisis_data] |})
    | Raise e => (Raise e, w)
    end.

(** ** [analyze_safety] *)

(** [analyze_safety] reaches its helpers through [self], so a subclass or a
    test double may replace any of them, and each is awaited and may raise.
    [Methods] is that table of helpers. *)
Record Methods := {
  call_analyze_crisis_keywords : string -> M KeywordAnalysis;
  call_analyze_crisis_patterns : string -> M PatternAnalysis;
  call_analyze_session_context : string -> string -> M ContextAnalysis;
  call_calculate_crisis_level :
    KeywordAnalysis -> PatternAnalysis -> ContextAnalysis -> M Z;
  call_determine_crisis_type : KeywordAnalysis -> PatternAnalysis -> M string;
  call_assess_urgency : Z -> string -> ContextAnalysis -> M string;
  call_update_session_crisis_tracking : string -> Z -> string -> M unit;
  call_get_safety_recommendations : Z -> string -> M (list string);
  call_log_crisis_event : string -> string -> SafetyVerdict -> M unit
}.

(** The body of the [try] block. *)
Definition analyze_safety_try (self : Methods) (message session_id : string)
    : M SafetyVerdict :=
  keyword_analysis <- call_analyze_crisis_keywords self message ;;
  pattern_analysis <- call_analyze_crisis_patterns self message ;;
  context_analysis <- call_analyze_session_context self session_id message ;;
  crisis_level <-
    call_calculate_crisis_level self
      keyword_analysis pattern_analysis context_analysis ;;
  crisis_type <-
    call_determine_crisis_type self keyword_analysis pattern_analysis ;;
  urgency <- call_assess_urgency self crisis_level crisis_type context_analysis ;;
  _ <- call_update_session_crisis_tracking self
         session_id crisis_level crisis_type ;;
  recommendations <- call_get_safety_recommendations self crisis_level urgency ;;
  let safety_analysis :=
    {| crisis_level := crisis_level;
       crisis_type := crisis_type;
       urgency := urgency;
       indicators :=
         Some {| ind_keywords := keyword_analysis;
                 ind_patterns := pattern_analysis;
                 ind_context := context_analysis |};
       recommendations := Some recommendations;
       error := None;
       requires_intervention := threshold "high" <=? crisis_level;
       requires_escalation := threshold "critical" <=? crisis_level |} in
  _ <- (if threshold "medium" <=? crisis_level
        then call_log_crisis_event self session_id message safety_analysis
        else ret tt) ;;
  ret safety_analysis.

(** The dict of the [except Exception as e] branch. *)
Definition fallback_verdict (e : string) : SafetyVerdict :=
  {| crisis_level := 8;
     crisis_type := "unknown";
     urgency := "high";
     indicators := None;
     recommendations := None;
     error := Some e;
     requires_intervention := true;
     requires_escalation := false |}.

Definition analyze_safety (self : Methods) (message session_id : string)
    (w : World) : SafetyVerdict * World :=
  match analyze_safety_try self message session_id w with
  | (Ok safety_analysis, w') => (safety_analysis, w')
  | (Raise e, w') => (fallback_verdict e, w')
  end.

(** The helpers as class [SafetyService] defines them, for a database [db]
    and a clock reading [now] ([datetime.now()]; no decision reads it). *)
Definition SafetyService (db : DatabaseManager) (now : Z) : Methods :=
  {| call_analyze_crisis_keywords :=
       fun message => ret (_analyze_crisis_keywords message);
     call_analyze_crisis_patterns :=
       fun message => ret (_analyze_crisis_patterns message);
     call_analyze_session_context :=
       fun session_id current_message w =>
         (Ok (_analyze_session_context db (session_crisis_history w)
                session_id current_message), w);
     call_calculate_crisis_level :=
       fun k p c => ret (_calculate_crisis_level k p c);
     call_determine_crisis_type :=
       fun k p => ret (_determine_crisis_type k p);
     call_assess_urgency :=
       fun crisis_level crisis_type c =>
         ret (_assess_urgency crisis_level crisis_type c);
     call_update_session_crisis_tracking :=
       fun session_id crisis_level crisis_type w =>
         (Ok tt,
          {| session_crisis_history :=
               _update_session_crisis_tracking now session_id
                 crisis_level crisis_type (session_crisis_history w);
             crisis_log := crisis_log w |});
     call_get_safety_recommendations :=
       fun crisis_level urgency =>
         ret (_get_safety_recommendations crisis_level urgency);
     call_log_crisis_event := _log_crisis_event db now |}.

(** ** [check_escalation_needed] *)

Record EscalationCriteria := {
  sustained_high_risk : bool;
  increasing_severity : bool;
  failed_interventions : bool;
  immediate_danger : bool
}.

Module Assessment.
Record t := {
  escalation_needed : bool;
  criteria_met : EscalationCriteria;
  recommended_action : string;
  urgency : string
}.
End Assessment.

Definition _get_escalation_recommendation (criteria : EscalationCriteria)
    : string :=
  if immediate_danger criteria then "تدخل طوارئ فوري - اتصل بـ 999"
  else if sustained_high_risk criteria then "تحويل عاجل لطبيب نفسي متخصص"
  else if increasing_severity criteria then "تقييم نفسي شامل مطلوب"
  else if failed_interventions criteria then "إشراف طبي مباشر مطلوب"
  else "مواصلة المراقبة والدعم".

(** [sum(xs)] on integers. *)
Definition sum_of (xs : list Z) : Z := fold_left Z.add xs 0.

(** The value [escalation_criteria["increasing_severity"]] ends with. *)
Definition increasing_severity_of (session_history : list Event.t) : bool :=
  if 3 <=? len session_history then
    let recent_levels := map Event.crisis_level (last_n 3 session_history) in
    (hd 0 recent_levels <? List.last recent_levels 0)
    && (18 <? sum_of recent_levels)
  else false.

Definition check_escalation_needed (tracked : gmap string (list Event.t))
    (session_id : string) (current_crisis_level : Z) : Assessment.t :=
  let session_history := history_of tracked session_id in
  let recent_high_risk :=
    List.filter (fun event => threshold "high" <=? Event.crisis_level event)
      (last_n 5 session_history) in
  let escalation_criteria :=
    {| sustained_high_risk := 3 <=? len recent_high_risk;
       increasing_severity := increasing_severity_of session_history;
       failed_interventions := 2 <? len session_history;
       immediate_danger := 9 <=? current_crisis_level |} in
  let escalation_needed :=
    existsb id
      [immediate_danger escalation_criteria;
       sustained_high_risk escalation_criteria
         && increasing_severity escalation_criteria;
       failed_interventions escalation_criteria
         && (7 <=? current_crisis_level)] in
  {| Assessment.escalation_needed := escalation_needed;
     Assessment.criteria_met := escalation_criteria;
     Assessment.recommended_action :=
       _get_escalation_recommendation escalation_criteria;
     Assessment.urgency :=
       if immediate_danger escalation_criteria then "immediate" else "urgent" |}.

(** ** Concrete collaborators used in examples *)

(** A database with no stored conversation that accepts every event. *)
Definition db_ok : DatabaseManager :=
  {| get_session_history := fun _ => Ok [];
     log_crisis_event := fun _ => Ok tt |}.

(** The state of a freshly constructed service. *)
Definition w0 : World := {| session_crisis_history := ∅; crisis_log := [] |}.

(** A service whose keyword matcher raises. *)
Definition broken_matcher : Methods :=
  let base := SafetyService db_ok 0 in
  {| call_analyze_crisis_keywords := fun _ => raise "matcher failed";
     call_analyze_crisis_patterns := call_analyze_crisis_patterns base;
     call_analyze_session_context := call_analyze_session_context base;
     call_calculate_crisis_level := call_calculate_crisis_level base;
     call_determine_crisis_type := call_determine_crisis_type base;
     call_assess_urgency := call_assess_urgency base;
     call_update_session_crisis_tracking :=
       call_update_session_crisis_tracking base;
     call_get_safety_recommendations := call_get_safety_recommendations base;
     call_log_crisis_event := call_log_crisis_event base |}.

(** A message that names suicide, self-harm and violence terms. *)
Definition msg_critical : string := "انتحار أقتل نفسي أؤذي نفسي".

(** ** What one analysis computes, for the class's own helpers *)

Section Analysis.
Variables (db : DatabaseManager) (now : Z) (w : World).
Variables (message session_id : string).

Definition context_of : ContextAnalysis :=
  _analyze_session_context db (session_crisis_history w) session_id message.

Definition level_of : Z :=
  _calculate_crisis_level (_analyze_crisis_keywords message)
    (_analyze_crisis_patterns message) context_of.

Definition type_of : string :=
  _determine_crisis_type (_analyze_crisis_keywords message)
    (_analyze_crisis_patterns message).

Definition urgency_of : string := _assess_urgency level_of type_of context_of.

(** The dict built on the normal path. *)
Definition verdict_of : SafetyVerdict :=
  {| crisis_level := level_of;
     crisis_type := type_of;
     urgency := urgency_of;
     indicators :=
       Some {| ind_keywords := _analyze_crisis_keywords message;
               ind_patterns := _analyze_crisis_patterns message;
               ind_context := context_of |};
     recommendations := Some (_get_safety_recommendations level_of urgency_of);
     error := None;
     requires_intervention := threshold "high" <=? level_of;
     requires_escalation := threshold "critical" <=? level_of |}.

(** The tracking entry appended for this message. *)
Definition event_of : Event.t :=
  {| Event.timestamp := now;
     Event.crisis_level := level_of;
     Event.crisis_type := type_of |}.

(** The state after [_update_session_crisis_tracking]. *)
Definition tracked_world : World :=
  {| session_crisis_history :=
       _update_session_crisis_tracking now session_id level_of type_of
         (session_crisis_history w);
     crisis_log := crisis_log w |}.
End Analysis.

(** ** Sequences of calls *)

(** One call of [analyze_safety]: what the database answers during it, the
    clock, the message and the session. *)
Record Call := {
  call_db : DatabaseManager;
  call_now : Z;
  call_message : string;
  call_session : string
}.

Definition run_call (w : World) (c : Call) : World :=
  snd (analyze_safety (SafetyService (call_db c) (call_now c))
         (call_message c) (call_session c) w).

Definition run_calls (calls : list Call) (w : World) : World :=
  fold_left run_call calls w.

(** Every session's tracked list holds at most ten entries. *)
Definition bounded (w : World) : Prop :=
  map_Forall (fun _ (events : list Event.t) => (length events <= 10)%nat)
    (session_crisis_history w).

(** ** The specification's formulas, stated as the specification words them *)

Definition clamp (lo hi x : Z) : Z := Z.max lo (Z.min hi x).

(** Indicator of a condition, as a number. *)
Definition ind (b : bool) : Q := if b then 1%Q else 0%Q.

(** [context_bonus = 2*[escalation_detected] + 1*[emotional_deterioration]
    + 1*[previous_interventions > 1] + 1.5*|high_risk_categories|] *)
Definition spec_context_bonus (k : KeywordAnalysis) (c : ContextAnalysis) : Q :=
  (2 * ind (escalation_detected c)
   + 1 * ind (emotional_deterioration c)
   + 1 * ind (1 <? previous_interventions c)
   + (3 # 2) * inject_Z (len (high_risk_categories k)))%Q.

(** [0.5*category_severity + 0.3*pattern_severity + context_bonus] *)
Definition spec_weighted_sum (k : KeywordAnalysis) (p : PatternAnalysis)
    (c : ContextAnalysis) : Q :=
  ((1 # 2) * total_severity k + (3 # 10) * inject_Z (severity p)
   + spec_context_bonus k c)%Q.

(** Rounding to the nearest integer, ties to the even one (Python's
    [round]). *)
Definition round (x : Q) : Z :=
  let f := Qfloor x in
  match (x - inject_Z f ?= 1 # 2)%Q with
  | Lt => f
  | Gt => f + 1
  | Eq => if Z.even f then f else f + 1
  end.

(** The level as the specification's formula gives it: rounded. *)
Definition spec_crisis_level_rounded (k : KeywordAnalysis)
    (p : PatternAnalysis) (c : ContextAnalysis) : Z :=
  clamp 0 10 (round (spec_weighted_sum k p c)).

(** "The last 3 events' levels strictly increasing and their sum > 18",
    false when fewer than 3 events are recorded. *)
Definition spec_strictly_increasing (session_history : list Event.t) : bool :=
  match map Event.crisis_level (last_n 3 session_history) with
  | [a; b; c] =>
      (3 <=? len session_history) && (a <? b) && (b <? c) && (18 <? a + b + c)
  | _ => false
  end.

(** Every trigger term and pattern phrase the two analyses look for. *)
Definition all_terms : list string :=
  concat (map snd crisis_keywords)
  ++ finality_words ++ goodbye_words ++ extreme_words ++ worthless_words.

(** Every term found in [m1] is also found in [m2]. *)
Definition matches_subset (m1 m2 : string) : bool :=
  forallb
    (fun term => implb (contains term (lower m1)) (contains term (lower m2)))
    all_terms.

(** [self.crisis_keywords[category]] *)
Definition keywords_of (category : string) : list string :=
  match List.find (fun kv => String.eqb category (fst kv)) crisis_keywords with
  | Some kv => snd kv
  | None => []
  end.

(** The message holds at least one trigger term of the suicide category. *)
Definition has_suicide_term (message : string) : bool :=
  existsb (fun keyword => contains keyword (lower message))
    (keywords_of "suicide").

(** An exception escapes the keyword, the pattern or the aggregation step
    of an analysis started in [w]: it carries [e] and leaves the state
    [w']. *)
Inductive analysis_raises (self : Methods) (message session_id : string)
    (w : World) (e : string) (w' : World) : Prop :=
  | keyword_step_raises :
      call_analyze_crisis_keywords self message w = (Raise e, w') ->
      analysis_raises self message session_id w e w'
  | pattern_step_raises k w1 :
      call_analyze_crisis_keywords self message w = (Ok k, w1) ->
      call_analyze_crisis_patterns self message w1 = (Raise e, w') ->
      analysis_raises self message session_id w e w'
  | aggregation_step_raises k w1 p w2 c w3 :
      call_analyze_crisis_keywords self message w = (Ok k, w1) ->
      call_analyze_crisis_patterns self message w1 = (Ok p, w2) ->
      call_analyze_session_context self session_id message w2 = (Ok c, w3) ->
      call_calculate_crisis_level self k p c w3 = (Raise e, w') ->
      analysis_raises self message session_id w e w'.

(** A tracking entry with a given level. *)
Definition event_at (level : Z) : Event.t :=
  {| Event.timestamp := 0;
     Event.crisis_level := level;
     Event.crisis_type := "suicide_risk" |}.

(** A session whose last three levels are 5, 9, 6. *)
Definition tracked_5_9_6 : gmap string (list Event.t) :=
  {[ "s1" := [event_at 5; event_at 9; event_at 6] ]}.

(** A session whose tracked list is full: levels 1 to 10. *)
Definition tracked_full : gmap string (list Event.t) :=
  {[ "s1" := map event_at [1; 2; 3; 4; 5; 6; 7; 8; 9; 10] ]}.

(** Every one of [words] found in the text [a] is found in the text [b]. *)
Definition found_also (a b : string) (words : list string) : Prop :=
  forall t, In t words -> contains t a = true -> contains t b = true.

(** ** The score in binary64 arithmetic *)

(** The exact score at a point of the grid the analysis ranges over: a
    total severity of [halves] halves, a pattern severity [sev], the three
    context conditions and [n_high] high-risk categories. *)
Definition grid_score (halves sev : Z) (esc det prev : bool) (n_high : Z) : Q :=
  ((halves # 2) * (1 # 2) + inject_Z sev * (3 # 10)
   + (2 * ind esc + 1 * ind det + 1 * ind prev + (3 # 2) * inject_Z n_high))%Q.

Module Binary64.

(** The float of a small non-negative integer. *)
Definition of_int (n : Z) : float := PrimFloat.of_uint63 (Uint63.of_Z n).

(** [int(x)] on a float: truncation toward zero; [None] where Python
    raises (infinities and NaN). *)
Definition trunc (x : float) : option Z :=
  match Prim2SF x with
  | S754_zero _ => Some 0
  | S754_finite s m e =>
      let magnitude :=
        if 0 <=? e then Z.pos m * 2 ^ e else Z.pos m / 2 ^ (- e) in
      Some (if s then - magnitude else magnitude)
  | S754_infinity _ => None
  | S754_nan => None
  end.

(** [total_score] of [_calculate_crisis_level] as Python evaluates it.  The
    literal [0.3] denotes the double [0x1.3333333333333p-2]; [0.5], [1.5]
    and the small integers are doubles themselves. *)
Definition total (halves sev : Z) (esc det prev : bool) (n_high : Z) : float :=
  let total_severity := (of_int halves / 2)%float in
  let keyword_score := (total_severity * 0.5)%float in
  let pattern_score := (of_int sev * 0x1.3333333333333p-2)%float in
  let context_score := 0%float in
  let context_score :=
    if esc then (context_score + 2)%float else context_score in
  let context_score :=
    if det then (context_score + 1)%float else context_score in
  let context_score :=
    if prev then (context_score + 1)%float else context_score in
  let context_score :=
    if 0 <? n_high
    then (context_score + of_int n_high * 1.5)%float else context_score in
  (keyword_score + pattern_score + context_score)%float.

(** Truncating the binary64 score gives the truncated exact score. *)
Definition agrees_at (halves sev : Z) (esc det prev : bool) (n_high : Z)
    : bool :=
  match trunc (total halves sev esc det prev n_high) with
  | Some z => z =? to_int (grid_score halves sev esc det prev n_high)
  | None => false
  end.

(** The same on the whole grid: severities 0, 0.5, ..., 10, pattern
    severities 0..10, every context, up to 7 high-risk categories. *)
Definition agrees_on_grid : bool :=
  forallb (fun halves =>
  forallb (fun sev =>
  forallb (fun esc =>
  forallb (fun det =>
  forallb (fun prev =>
  forallb (fun n_high => agrees_at halves sev esc det prev n_high)
    (seqZ 0 8)) [false; true]) [false; true]) [false; true])
    (seqZ 0 11)) (seqZ 0 21).

End Binary64.

(** A number of halves: [n/2] for an integer [n >= 0]. *)
Definition half_integral (q : Q) : Prop := exists n : Z, 0 <= n /\ (q == n # 2)%Q.

(** ** Vocabularies and well-formedness of what the service stores *)

(** The urgency tiers [_assess_urgency] chooses from, lowest first. *)
Definition urgency_tiers : list string :=
  ["none"; "low"; "moderate"; "urgent"; "immediate"].

(** The position of a tier in [urgency_tiers]; [-1] for any other string. *)
Definition urgency_rank (urgency : string) : Z :=
  if String.eqb urgency "none" then 0
  else if String.eqb urgency "low" then 1
  else if String.eqb urgency "moderate" then 2
  else if String.eqb urgency "urgent" then 3
  else if String.eqb urgency "immediate" then 4
  else -1.

(** The crisis types [_determine_crisis_type] chooses from. *)
Definition crisis_types : list string :=
  ["suicide_risk"; "self_harm_risk"; "violence_risk";
   "mental_health_emergency"; "substance_abuse"; "severe_depression";
   "social_crisis"; "emotional_distress"].

(** A tracked entry as an analysis writes it. *)
Definition well_formed_event (e : Event.t) : Prop :=
  0 <= Event.crisis_level e <= 10 /\ In (Event.crisis_type e) crisis_types.

Definition tracked_well_formed (w : World) : Prop :=
  map_Forall (fun _ (events : list Event.t) => Forall well_formed_event events)
    (session_crisis_history w).

(** A crisis-log entry as an analysis writes it. *)
Definition well_formed_log_entry (d : CrisisData.t) : Prop :=
  5 <= CrisisData.crisis_level d <= 10
  /\ CrisisData.escalated d = (9 <=? CrisisData.crisis_level d)
  /\ CrisisData.follow_up_needed d = (7 <=? CrisisData.crisis_level d)
  /\ In (CrisisData.crisis_type d) crisis_types
  /\ CrisisData.intervention_response d = EmptyString.

(** A database with no stored conversation that rejects every event. *)
Definition db_log_fails : DatabaseManager :=
  {| get_session_history := fun _ => Ok [];
     log_crisis_event := fun _ => Raise "database unavailable" |}.

(** At least one keyword of the table entry occurs in the text. *)
Definition category_found (text : string) (entry : string * list string)
    : bool :=
  existsb (fun keyword => contains keyword text) (snd entry).

(** No trigger term and no pattern phrase occurs in the message. *)
Definition no_match (message : string) : bool :=
  forallb (fun term => negb (contains term (lower message))) all_terms.

(** What a matches entry must look like, for the keywords of [table]. *)
Definition entry_ok (text : string) (table : list (string * list string))
    (item : string * CategoryMatch) : Prop :=
  exists keywords,
    In (fst item, keywords) table
    /\ cm_matches (snd item) = List.filter (fun kw => contains kw text) keywords
    /\ cm_count (snd item) = count_in keywords text
    /\ 1 <= cm_count (snd item)
    /\ (cm_severity (snd item)
        == inject_Z (cm_count (snd item)) * category_weight (fst item))%Q.

(** ** Crisis response *)

(** The line feed and the double quote, which the texts below contain. *)
Definition nl : string := String (ascii_of_nat 10) EmptyString.
Definition dq : string := String (ascii_of_nat 34) EmptyString.

(** An entry of [self.emergency_resources["hotlines"]]. *)
Record Hotline := {
  hl_name : string;
  hl_number : string;
  hl_description : string;
  hl_language : string
}.

(** [self.emergency_resources["hotlines"]]; the other tables of
    [_load_emergency_resources] are read by no method. *)
Definition hotlines : list Hotline :=
  [{| hl_name := "خط المساعدة النفسية - وزارة الصحة";
      hl_number := "80077";
      hl_description := "خدمة مجانية متاحة 24/7";
      hl_language := "العربية" |};
   {| hl_name := "الطوارئ العامة";
      hl_number := "999";
      hl_description := "للحالات الطارئة التي تهدد الحياة";
      hl_language := "العربية والإنجليزية" |};
   {| hl_name := "الهلال الأحمر العماني";
      hl_number := "999";
      hl_description := "خدمات الإسعاف والطوارئ الطبية";
      hl_language := "العربية" |}].

(** An entry of [emergency_contacts]. *)
Record Contact := {
  ct_name : string;
  ct_number : string;
  ct_available : string
}.

(** [utils.prompts.TherapeuticPrompts] is a collaborator outside this
    module: the two dicts its methods return are parameters. *)
Record TherapeuticPrompts := {
  get_crisis_intervention_responses : gmap string string;
  get_crisis_cultural_context : gmap string (gmap string string)
}.

(** [d[key]]: raises [KeyError(key)], whose text is the quoted key. *)
Definition getitem {A} (d : gmap string A) (key : string) : result A :=
  match d !! key with
  | Some v => Ok v
  | None => Raise ("'" +:+ key +:+ "'")
  end.

Definition _get_cultural_crisis_support (prompts : TherapeuticPrompts)
    (crisis_type : string) : result string :=
  match getitem (get_crisis_cultural_context prompts) "suicide_prevention" with
  | Raise e => Raise e
  | Ok suicide_prevention =>
      match getitem suicide_prevention "islamic_perspective" with
      | Raise e => Raise e
      | Ok base_message =>
          if String.eqb crisis_type "suicide_risk" then
            Ok (String.concat nl
          [EmptyString;
           base_message;
           EmptyString;
           "تذكر أن:";
           ("• الله سبحانه وتعالى قال: " +:+ dq +:+ "ولا تقتلوا أنفسكم إن الله كان بكم رحيماً" +:+ dq);
           "• حياتك أمانة من الله، وأنت مسؤول عن المحافظة عليها";
           "• مع العسر يسراً، وهذا وعد من الله";
           "• أهلك وأصدقاؤك يحبونك ويحتاجونك";
           EmptyString;
           "أرجوك تواصل مع:";
           "• إمام المسجد أو شيخ تثق به";
           "• أفراد أسرتك أو أصدقائك المقربين";
           "• خط المساعدة النفسية: 80077";
           EmptyString])
          else
            Ok (String.concat nl
          [EmptyString;
           base_message;
           EmptyString;
           ("الله سبحانه وتعالى يقول: " +:+ dq +:+ "ومن أحياها فكأنما أحيا الناس جميعاً" +:+ dq);
           "أنت تستحق الحياة والسعادة، وهناك أمل دائماً.";
           EmptyString;
           "لا تتردد في طلب المساعدة من:";
           "• الأسرة والأصدقاء";
           "• المختصين في الصحة النفسية";
           "• المجتمع الديني";
           EmptyString])
      end
  end.

Definition _get_immediate_actions (crisis_level : Z) (crisis_type : string)
    : list string :=
  if 9 <=? crisis_level then
    ["الاتصال بالطوارئ (999) فوراً";
      "عدم ترك الشخص وحيداً";
      "إزالة أي وسائل يمكن استخدامها للإيذاء";
      "النقل للمستشفى إذا لزم الأمر"]
  else if 7 <=? crisis_level then
    ["الاتصال بخط المساعدة النفسية (80077)";
      "إشراك شخص موثوق (أسرة/صديق)";
      "ترتيب زيارة عاجلة لمختص";
      "المتابعة المستمرة لمدة 24-48 ساعة"]
  else if 5 <=? crisis_level then
    ["جدولة موعد مع مختص نفسي";
      "إعلام شخص موثوق بالوضع";
      "إزالة مسببات الضغط الفورية";
      "تطبيق تقنيات التهدئة الذاتية"]
  else
    ["تعزيز شبكة الدعم الاجتماعي";
      "ممارسة أنشطة مهدئة";
      "المتابعة الدورية للحالة النفسية"].

(** The dict [get_crisis_response] returns. *)
Module Response.
Record t := {
  message : string;
  crisis_level : Z;
  urgency : string;
  resources : list Hotline;
  emergency_contacts : list Contact;
  immediate_actions : list string;
  follow_up_required : bool
}.
End Response.

(** The base response chosen by crisis type. *)
Definition base_response_of (prompts : TherapeuticPrompts)
    (crisis_type : string) : result string :=
  let crisis_responses := get_crisis_intervention_responses prompts in
  if String.eqb crisis_type "suicide_risk" then
    getitem crisis_responses "suicide_ideation"
  else if String.eqb crisis_type "self_harm_risk" then
    getitem crisis_responses "self_harm"
  else if String.eqb crisis_type "substance_abuse" then
    getitem crisis_responses "substance_abuse"
  else
    Ok (String.concat nl
      [EmptyString;
       "أقدر شجاعتك في مشاركة هذه المشاعر الصعبة معي. ";
       "أريدك أن تعلم أنك لست وحيداً، وأن هناك أشخاص يهتمون بك ويريدون مساعدتك.";
       "هذه المشاعر التي تمر بها الآن قاسية، لكنها مؤقتة ويمكن التعامل معها.";
       EmptyString]).

(** [get_crisis_response] has no [try]: a [KeyError] of a prompt lookup
    reaches the caller. *)
Definition get_crisis_response (prompts : TherapeuticPrompts)
    (safety_analysis : SafetyVerdict) : result Response.t :=
  let crisis_level := crisis_level safety_analysis in
  let crisis_type := crisis_type safety_analysis in
  let urgency := urgency safety_analysis in
  match base_response_of prompts crisis_type with
  | Raise e => Raise e
  | Ok base_response =>
      let '(emergency_resources, emergency_contacts) :=
        if threshold "high" <=? crisis_level then
          (hotlines,
           [{| ct_name := "خط المساعدة النفسية";
               ct_number := "80077";
               ct_available := "24/7" |};
            {| ct_name := "الطوارئ";
               ct_number := "999";
               ct_available := "24/7" |}])
        else ([], []) in
      match _get_cultural_crisis_support prompts crisis_type with
      | Raise e => Raise e
      | Ok cultural_support =>
          Ok {| Response.message :=
                  base_response +:+ nl +:+ nl +:+ cultural_support;
                Response.crisis_level := crisis_level;
                Response.urgency := urgency;
                Response.resources := emergency_resources;
                Response.emergency_contacts := emergency_contacts;
                Response.immediate_actions :=
                  _get_immediate_actions crisis_level crisis_type;
                Response.follow_up_required :=
                  threshold "medium" <=? crisis_level |}
      end
  end.

(** The keys of the prompt dicts [get_crisis_response] reads for a crisis
    type. *)
Definition prompts_cover (prompts : TherapeuticPrompts) (crisis_type : string)
    : Prop :=
  (exists section,
      get_crisis_cultural_context prompts !! "suicide_prevention" = Some section
      /\ is_Some (section !! "islamic_perspective"))
  /\ (crisis_type = "suicide_risk" ->
      is_Some (get_crisis_intervention_responses prompts !! "suicide_ideation"))
  /\ (crisis_type = "self_harm_risk" ->
      is_Some (get_crisis_intervention_responses prompts !! "self_harm"))
  /\ (crisis_type = "substance_abuse" ->
      is_Some (get_crisis_intervention_responses prompts !! "substance_abuse")).

(** Prompts with the cultural passage and the three base responses. *)
Definition prompts_full : TherapeuticPrompts :=
  {| get_crisis_intervention_responses :=
       {[ "suicide_ideation" := "A"; "self_harm" := "B";
          "substance_abuse" := "C" ]};
     get_crisis_cultural_context :=
       {[ "suicide_prevention" := {[ "islamic_perspective" := "D" ]} ]} |}.

(** Prompts that lack the cultural passage. *)
Definition prompts_without_culture : TherapeuticPrompts :=
  {| get_crisis_intervention_responses :=
       {[ "suicide_ideation" := "A"; "self_harm" := "B";
          "substance_abuse" := "C" ]};
     get_crisis_cultural_context := ∅ |}.

(** ** Health check *)

Record HealthCheck := {
  status : string;
  crisis_keywords_loaded : Z;
  emergency_resources_loaded : Z;
  active_session_tracking : Z;
  health_crisis_thresholds : list (string * Z)
}.

Definition health_check (w : World) : HealthCheck :=
  {| status := "healthy";
     crisis_keywords_loaded := len crisis_keywords;
     emergency_resources_loaded := len hotlines;
     active_session_tracking := Z.of_nat (size (session_crisis_history w));
     health_crisis_thresholds := crisis_thresholds |}.

(** ** Session safety report *)

(** A crisis event as the database exports it; a key the row lacks is
    [None]. *)
Record CrisisEventRow := {
  row_crisis_level : option Z;
  row_crisis_type : option string;
  row_escalated : option bool
}.

(** An exported interaction; only its emotional state is read. *)
Record Interaction := {
  row_emotional_state : option string
}.

(** The dict [db_manager.export_session_data] returns: the value under
    "error" when that key is present, and the two lists when present. *)
Record SessionData := {
  sd_error : option string;
  sd_crisis_events : option (list CrisisEventRow);
  sd_interactions : option (list Interaction)
}.

(** [event.get("crisis_level", 0)], [event.get("crisis_type", "")],
    [event.get("escalated", False)] *)
Definition level_of_row (event : CrisisEventRow) : Z :=
  default 0 (row_crisis_level event).
Definition type_of_row (event : CrisisEventRow) : string :=
  default EmptyString (row_crisis_type event).
Definition escalated_of_row (event : CrisisEventRow) : bool :=
  default false (row_escalated event).

(** [max(xs, default=d)] on integers. *)
Definition max_default (xs : list Z) (d : Z) : Z :=
  match xs with
  | [] => d
  | x :: rest => fold_left Z.max rest x
  end.

(** [emotion_counts[emotion] = emotion_counts.get(emotion, 0) + 1] on a
    dict kept in insertion order. *)
Fixpoint count_emotion (emotion : string) (emotion_counts : list (string * Z))
    : list (string * Z) :=
  match emotion_counts with
  | [] => [(emotion, 0 + 1)]
  | (key, n) :: rest =>
      if String.eqb emotion key then (key, n + 1) :: rest
      else (key, n) :: count_emotion emotion rest
  end.

(** [max(emotion_counts, key=emotion_counts.get)]: the first key, in
    insertion order, whose count is the largest; [best] is the candidate so
    far. *)
Definition max_by_count (best : string * Z) (emotion_counts : list (string * Z))
    : string :=
  fst (fold_left
         (fun best item => if snd best <? snd item then item else best)
         emotion_counts best).

Definition positive_emotions : list string :=
  ["happy"; "grateful"; "hopeful"; "calm"].

(** The negative emotions as [_analyze_emotional_progression] lists them. *)
Definition negative_emotions_report : list string :=
  ["sad"; "anxious"; "angry"; "hopeless"].

(** What [_analyze_emotional_progression] returns: [{"status": "no_data"}]
    or the three-key dict. *)
Inductive EmotionalProgression : Type :=
  | NoData
  | Progression (emotion_distribution : list (string * Z))
      (recent_negative recent_positive : Z) (overall_trend : string)
      (dominant_emotion : string).

Definition _analyze_emotional_progression (interactions : list Interaction)
    : EmotionalProgression :=
  match interactions with
  | [] => NoData
  | _ :: _ =>
      let emotions :=
        map (fun interaction => default "neutral" (row_emotional_state interaction))
          interactions in
      let emotion_counts :=
        fold_left (fun counts emotion => count_emotion emotion counts)
          emotions [] in
      let recent_emotions :=
        if 5 <=? len emotions then last_n 5 emotions else emotions in
      let negative_trend :=
        len (List.filter (fun e => str_in e negative_emotions_report)
               recent_emotions) in
      let positive_trend :=
        len (List.filter (fun e => str_in e positive_emotions)
               recent_emotions) in
      Progression emotion_counts negative_trend positive_trend
        (if negative_trend <? positive_trend then "improving"
         else if positive_trend <? negative_trend then "concerning"
         else "stable")
        (match emotion_counts with
         | [] => "neutral"
         | first :: rest => max_by_count first rest
         end)
  end.

Definition _generate_session_safety_recommendations
    (crisis_events : list CrisisEventRow) (interactions : list Interaction)
    : list string :=
  match crisis_events with
  | [] => ["الجلسة تمت بأمان دون أحداث أزمة"]
  | _ :: _ =>
      let max_crisis_level := max_default (map level_of_row crisis_events) 0 in
      if 8 <=? max_crisis_level then
        ["متابعة عاجلة خلال 24 ساعة";
      "تأكيد سلامة المستخدم";
      "تفعيل شبكة الدعم الأسرية";
      "تقييم الحاجة للتدخل المهني"]
      else if 6 <=? max_crisis_level then
        ["متابعة خلال 48-72 ساعة";
      "مراجعة استراتيجيات التأقلم";
      "تقوية الموارد النفسية";
      "مراقبة علامات التحسن أو التدهور"]
      else
        ["متابعة روتينية";
      "تعزيز النجاحات المحققة";
      "الاستمرار في بناء المهارات النفسية"]
  end.

Record SafetySummary := {
  summary_session_id : string;
  total_crisis_events : Z;
  highest_crisis_level : Z;
  crisis_types_encountered : gset string;
  interventions_applied : Z;
  emotional_progression : EmotionalProgression;
  safety_recommendations : list string;
  summary_follow_up_required : bool
}.

(** What [generate_safety_report] returns: [{"error": str(e)}] when the
    export raised, the exported dict itself when it has an "error" key, or
    the summary.  [crisis_types_encountered] is [list(set(...))], a list
    without duplicates in no particular order: a finite set. *)
Inductive SafetyReport : Type :=
  | ReportFailed (e : string)
  | ReportPassedThrough (session_data : SessionData)
  | ReportSummary (summary : SafetySummary).

(** [export] is what [db_manager.export_session_data(session_id)] answers:
    the exported dict, or the exception it raised. *)
Definition generate_safety_report (export : result SessionData)
    (session_id : string) : SafetyReport :=
  match export with
  | Raise e => ReportFailed e
  | Ok session_data =>
      match sd_error session_data with
      | Some _ => ReportPassedThrough session_data
      | None =>
          let crisis_events := default [] (sd_crisis_events session_data) in
          let interactions := default [] (sd_interactions session_data) in
          ReportSummary
            {| summary_session_id := session_id;
               total_crisis_events := len crisis_events;
               highest_crisis_level :=
                 max_default (map level_of_row crisis_events) 0;
               crisis_types_encountered :=
                 list_to_set (map type_of_row crisis_events);
               interventions_applied :=
                 len (List.filter escalated_of_row crisis_events);
               emotional_progression :=
                 _analyze_emotional_progression interactions;
               safety_recommendations :=
                 _generate_session_safety_recommendations
                   crisis_events interactions;
               summary_follow_up_required :=
                 (0 <? len crisis_events)
                 || existsb
                      (fun event => threshold "medium" <=? level_of_row event)
                      crisis_events |}
      end
  end.


(** ** Basic facts *)

Lemma threshold_medium : threshold "medium" = 5.
Proof. reflexivity. Qed.

Lemma threshold_high : threshold "high" = 7.
Proof. reflexivity. Qed.

Lemma threshold_critical : threshold "critical" = 9.
Proof. reflexivity. Qed.

(** Splits the next awaited call of a [bind] chain into its two outcomes. *)
Ltac await_step :=
  match goal with
  | H : context [bind ?c _ ?w] |- _ =>
      unfold bind at 1 in H;
      let r := fresh "r" in
      let w' := fresh "w" in
      let E := fresh "E" in
      destruct (c w) as [r w'] eqn:E; destruct r
  end.

(** On the normal path the two flags are the threshold tests on the level
    that was computed, whatever the helpers are. *)
Lemma analyze_safety_try_ok (self : Methods) message session_id w v w' :
  analyze_safety_try self message session_id w = (Ok v, w') ->
  requires_escalation v = (9 <=? crisis_level v)
  /\ requires_intervention v = (7 <=? crisis_level v)
  /\ error v = None.
Proof.
  unfold analyze_safety_try. intros H.
  repeat (await_step; [ | discriminate H ]).
  unfold ret in H. injection H as <- _. cbn. auto.
Qed.

(** The whole analysis with the class's own helpers, in closed form. *)
Lemma analyze_safety_SafetyService db now message session_id w :
  analyze_safety (SafetyService db now) message session_id w =
  let v := verdict_of db w message session_id in
  let w1 := tracked_world db now w message session_id in
  if 5 <=? level_of db w message session_id then
    match log_crisis_event db (crisis_data_of now session_id message v) with
    | Ok _ =>
        (v, {| session_crisis_history := session_crisis_history w1;
               crisis_log := crisis_log w ++
                             [crisis_data_of now session_id message v] |})
    | Raise e => (fallback_verdict e, w1)
    end
  else (v, w1).
Proof.
  unfold verdict_of, tracked_world, urgency_of, level_of, type_of, context_of.
  unfold analyze_safety, analyze_safety_try, SafetyService, bind, ret,
    _log_crisis_event.
  cbn [call_analyze_crisis_keywords call_analyze_crisis_patterns
       call_analyze_session_context call_calculate_crisis_level
       call_determine_crisis_type call_assess_urgency
       call_update_session_crisis_tracking call_get_safety_recommendations
       call_log_crisis_event session_crisis_history crisis_log].
  rewrite threshold_medium. cbv zeta.
  match goal with |- context [5 <=? ?l] => destruct (5 <=? l) end;
    [ | reflexivity ].
  match goal with |- context [log_crisis_event db ?d] =>
    destruct (log_crisis_event db d) end; reflexivity.
Qed.

(** ** The escalation assessment *)

(** C10: the assessment's urgency is "immediate" when the current level is
    at least 9 and "urgent" otherwise, whatever the session's history and
    whether or not escalation is needed; it is never "none", "low" or
    "moderate". *)
Theorem C10_assessment_urgency :
  forall (tracked : gmap string (list Event.t)) (session_id : string)
         (current_crisis_level : Z),
    let a := check_escalation_needed tracked session_id current_crisis_level in
    Assessment.urgency a
      = (if 9 <=? current_crisis_level then "immediate" else "urgent")
    /\ Assessment.urgency a <> "none"
    /\ Assessment.urgency a <> "low"
    /\ Assessment.urgency a <> "moderate".
Proof.
  intros tracked session_id lvl. cbn.
  destruct (9 <=? lvl); repeat split; discriminate.
Qed.

(** The part of the escalation invariant that the code keeps.  A verdict
    whose own, returned crisis level is at least 9 has
    [requires_escalation] set, for any helpers; and
    [check_escalation_needed] with a current level of at least 9 reports
    [immediate_danger] and [escalation_needed], whatever the session's
    history makes of the other criteria.  The first half says nothing about
    a level that was computed and then replaced by the fallback's 8. *)
Lemma returned_critical_level_escalates :
  forall (self : Methods) (message session_id : string) (w : World)
         (tracked : gmap string (list Event.t)) (sid : string)
         (current_crisis_level : Z),
    (9 <= crisis_level (fst (analyze_safety self message session_id w)) ->
     requires_escalation (fst (analyze_safety self message session_id w))
       = true)
    /\ (9 <= current_crisis_level ->
        let a := check_escalation_needed tracked sid current_crisis_level in
        immediate_danger (Assessment.criteria_met a) = true
        /\ Assessment.escalation_needed a = true).
Proof.
  intros self message session_id w tracked sid lvl. split.
  - unfold analyze_safety.
    destruct (analyze_safety_try self message session_id w) as [[v|e] w'] eqn:E;
      cbn.
    + destruct (analyze_safety_try_ok _ _ _ _ _ _ E) as (-> & _ & _).
      intros H. apply Z.leb_le. exact H.
    + intros H. exfalso. revert H. apply Z.lt_nge. reflexivity.
  - intros H. apply Z.leb_le in H. cbn. rewrite H. auto.
Qed.

(** The write of the crisis event is awaited inside the [try] block.  With
    the class's own helpers, whenever the message scores at least 5 and the
    database rejects the write, the verdict that was built is dropped and
    the fallback verdict is returned: level 8, no escalation, whatever
    level was computed. *)
Lemma log_failure_yields_fallback :
  forall (db : DatabaseManager) (now : Z) (message session_id : string)
         (w : World) (e : string),
    5 <= level_of db w message session_id ->
    log_crisis_event db
      (crisis_data_of now session_id message
         (verdict_of db w message session_id)) = Raise e ->
    fst (analyze_safety (SafetyService db now) message session_id w)
    = fallback_verdict e.
Proof.
  intros db now message session_id w e H5 Hlog.
  rewrite analyze_safety_SafetyService. cbv zeta.
  apply Z.leb_le in H5. rewrite H5, Hlog. reflexivity.
Qed.

(** C1 fails on the code.  The message below names suicide, self-harm and
    violence terms and scores 9 in a fresh session; with a database that
    accepts the crisis event the verdict requires escalation, but when the
    database rejects the event the same analysis returns the fallback
    verdict, level 8 with [requires_escalation] false, although the level
    it computed, and tracked for the session, is 9. *)
Theorem C1_escalation_lost_when_log_fails :
  let ok := analyze_safety (SafetyService db_ok 0) msg_critical "s1" w0 in
  let failed :=
    analyze_safety (SafetyService db_log_fails 0) msg_critical "s1" w0 in
  level_of db_ok w0 msg_critical "s1" = 9
  /\ requires_escalation (fst ok) = true
  /\ level_of db_log_fails w0 msg_critical "s1" = 9
  /\ fst failed = fallback_verdict "database unavailable"
  /\ crisis_level (fst failed) = 8
  /\ requires_escalation (fst failed) = false
  /\ map Event.crisis_level
       (history_of (session_crisis_history (snd failed)) "s1") = [9].
Proof. vm_compute. repeat split; reflexivity. Qed.

(** ** The fallback verdict *)

Lemma analysis_raises_try self message session_id w e w' :
  analysis_raises self message session_id w e w' ->
  analyze_safety_try self message session_id w = (Raise e, w').
Proof.
  unfold analyze_safety_try, bind.
  intros [Hk | k w1 Hk Hp | k w1 p w2 c w3 Hk Hp Hc Hl].
  - now rewrite Hk.
  - now rewrite Hk, Hp.
  - now rewrite Hk, Hp, Hc, Hl.
Qed.

(** C2: when the keyword, the pattern or the aggregation step raises, the
    call still returns, and what it returns is the fixed conservative
    verdict: level 8, type "unknown", urgency "high", intervention
    required. *)
Theorem C2_failure_yields_fallback :
  forall (self : Methods) (message session_id : string) (w : World)
         (e : string) (w' : World),
    analysis_raises self message session_id w e w' ->
    let v := fst (analyze_safety self message session_id w) in
    analyze_safety self message session_id w = (fallback_verdict e, w')
    /\ crisis_level v = 8
    /\ crisis_type v = "unknown"
    /\ urgency v = "high"
    /\ requires_intervention v = true.
Proof.
  intros self message session_id w e w' H.
  apply analysis_raises_try in H.
  unfold analyze_safety. rewrite H. cbn. auto.
Qed.

Lemma C2_failure_yields_fallback_witness :
  analysis_raises broken_matcher "hello" "s1" w0 "matcher failed" w0
  /\ analyze_safety broken_matcher "hello" "s1" w0
     = (fallback_verdict "matcher failed", w0).
Proof.
  assert (H : analysis_raises broken_matcher "hello" "s1" w0
                "matcher failed" w0).
  { apply keyword_step_raises. reflexivity. }
  split; [ exact H | ].
  exact (proj1 (C2_failure_yields_fallback broken_matcher "hello" "s1" w0
                  "matcher failed" w0 H)).
Defined.

(** ** Bounds on the crisis level *)

Lemma calculate_crisis_level_range k p c :
  0 <= _calculate_crisis_level k p c <= 10.
Proof. unfold _calculate_crisis_level. lia. Qed.

(** C3: whatever the message, the session state and the database's
    answers, the verdict's crisis level lies in [0, 10]: on the normal path
    it is the clamped score, on the fallback path it is 8. *)
Theorem C3_crisis_level_in_range :
  forall (db : DatabaseManager) (now : Z) (message session_id : string)
         (w : World),
    0 <= crisis_level (fst (analyze_safety (SafetyService db now)
                              message session_id w)) <= 10.
Proof.
  intros db now message session_id w.
  rewrite analyze_safety_SafetyService. cbv zeta.
  pose proof (calculate_crisis_level_range
                (_analyze_crisis_keywords message)
                (_analyze_crisis_patterns message)
                (context_of db w message session_id)) as Hr.
  fold (level_of db w message session_id) in Hr.
  destruct (5 <=? level_of db w message session_id).
  - destruct (log_crisis_event db _); cbn; [ exact Hr | lia ].
  - cbn. exact Hr.
Qed.

(** ** Session tracking *)

Lemma last_n_length {A} (n : nat) (xs : list A) : (length (last_n n xs) <= n)%nat.
Proof. unfold last_n. rewrite length_drop. lia. Qed.

Lemma last_n_short {A} (n : nat) (xs : list A) :
  (length xs <= n)%nat -> last_n n xs = xs.
Proof.
  intros H. unfold last_n.
  replace (length xs - n)%nat with 0%nat by lia. apply drop_0.
Qed.

Lemma last_n_app {A} (xs ys : list A) : last_n (length ys) (xs ++ ys) = ys.
Proof.
  unfold last_n. rewrite length_app.
  replace (length xs + length ys - length ys)%nat with (length xs) by lia.
  apply drop_app_length.
Qed.

Lemma last_n_snoc_full {A} (n : nat) (xs : list A) (x : A) :
  length xs = S n -> last_n (S n) (xs ++ [x]) = tail xs ++ [x].
Proof.
  intros H. unfold last_n. rewrite length_app. cbn [length].
  replace (length xs + 1 - S n)%nat with 1%nat by lia.
  destruct xs as [|y xs]; [ discriminate H | reflexivity ].
Qed.

(** The session's list after [_update_session_crisis_tracking]: the new
    entry is appended and the last ten entries are kept; other sessions are
    not touched. *)
Lemma update_tracking_history now session_id lvl ty tracked sid :
  history_of (_update_session_crisis_tracking now session_id lvl ty tracked) sid
  = if decide (session_id = sid)
    then last_n 10
           (history_of tracked session_id ++
            [{| Event.timestamp := now;
                Event.crisis_level := lvl;
                Event.crisis_type := ty |}])
    else history_of tracked sid.
Proof.
  unfold _update_session_crisis_tracking.
  set (e := {| Event.timestamp := now |}).
  set (t1 := match tracked !! session_id with
             | None => <[session_id := []]> tracked
             | Some _ => tracked
             end).
  assert (H1 : forall s, history_of t1 s = history_of tracked s).
  { intros s. unfold t1, history_of.
    destruct (tracked !! session_id) eqn:E; [ reflexivity | ].
    destruct (decide (session_id = s)) as [<- | Hne].
    - rewrite lookup_insert_eq, E. reflexivity.
    - rewrite lookup_insert_ne by exact Hne. reflexivity. }
  set (t2 := <[session_id := history_of t1 session_id ++ [e]]> t1).
  assert (H2 : history_of t2 session_id = history_of tracked session_id ++ [e]).
  { unfold t2, history_of at 1. rewrite lookup_insert_eq. cbn.
    now rewrite H1. }
  assert (H3 : forall s, session_id <> s -> history_of t2 s = history_of tracked s).
  { intros s Hne. unfold t2, history_of at 1.
    rewrite lookup_insert_ne by exact Hne. apply H1. }
  destruct (10 <? len (history_of t2 session_id)) eqn:E.
  - destruct (decide (session_id = sid)) as [<- | Hne].
    + unfold history_of at 1. rewrite lookup_insert_eq. cbn. now rewrite H2.
    + unfold history_of at 1. rewrite lookup_insert_ne by exact Hne.
      apply H3, Hne.
  - destruct (decide (session_id = sid)) as [<- | Hne].
    + rewrite H2. symmetry. apply last_n_short.
      apply Z.ltb_ge in E. rewrite H2 in E. unfold len in E. lia.
    + apply H3, Hne.
Qed.

Lemma update_tracking_bounded now session_id lvl ty tracked :
  map_Forall (fun _ (events : list Event.t) => (length events <= 10)%nat) tracked ->
  map_Forall (fun _ (events : list Event.t) => (length events <= 10)%nat)
    (_update_session_crisis_tracking now session_id lvl ty tracked).
Proof.
  intros Hb sid events Hsid.
  pose proof (update_tracking_history now session_id lvl ty tracked sid) as Hh.
  unfold history_of at 1 in Hh. rewrite Hsid in Hh. cbn in Hh.
  destruct (decide (session_id = sid)) as [<- | Hne].
  - rewrite Hh. apply last_n_length.
  - unfold history_of in Hh. destruct (tracked !! sid) as [old|] eqn:E.
    + cbn in Hh. subst events. exact (Hb sid old E).
    + cbn in Hh. subst events. cbn. lia.
Qed.

(** The tracked histories after an analysis, on every path. *)
Lemma analyze_safety_tracking db now message session_id w :
  session_crisis_history
    (snd (analyze_safety (SafetyService db now) message session_id w))
  = _update_session_crisis_tracking now session_id
      (level_of db w message session_id) (type_of message)
      (session_crisis_history w).
Proof.
  rewrite analyze_safety_SafetyService. cbv zeta.
  destruct (5 <=? level_of db w message session_id); [ | reflexivity ].
  destruct (log_crisis_event db _); reflexivity.
Qed.

Lemma run_call_bounded w c : bounded w -> bounded (run_call w c).
Proof.
  unfold bounded, run_call. rewrite analyze_safety_tracking.
  apply update_tracking_bounded.
Qed.

Lemma run_calls_bounded calls : forall w, bounded w -> bounded (run_calls calls w).
Proof.
  induction calls as [|c calls IH]; intros w Hw; cbn.
  - exact Hw.
  - apply IH, run_call_bounded, Hw.
Qed.

(** C9: after any sequence of analyses, every session's tracked list has
    at most ten entries; each analysis appends its entry at the end and
    keeps the last ten, so a full list loses its oldest entry. *)
Theorem C9_event_list_capped :
  forall (calls : list Call) (w : World),
    bounded w ->
    bounded (run_calls calls w)
    /\ forall c : Call,
        let old := history_of (session_crisis_history w) (call_session c) in
        let new := history_of (session_crisis_history (run_call w c))
                     (call_session c) in
        let entry := event_of (call_db c) (call_now c) w
                       (call_message c) (call_session c) in
        new = last_n 10 (old ++ [entry])
        /\ (length old = 10%nat -> new = tail old ++ [entry]).
Proof.
  intros calls w Hw. split; [ apply run_calls_bounded, Hw | ].
  intros c old new entry.
  assert (Hnew : new = last_n 10 (old ++ [entry])).
  { unfold new, run_call. rewrite analyze_safety_tracking.
    rewrite update_tracking_history.
    destruct (decide (call_session c = call_session c)); [ reflexivity | congruence ]. }
  split; [ exact Hnew | ].
  intros Hlen. rewrite Hnew. apply last_n_snoc_full, Hlen.
Qed.

Lemma C9_event_list_capped_witness :
  bounded {| session_crisis_history := tracked_full; crisis_log := [] |}
  /\ history_of
       (session_crisis_history
          (run_call {| session_crisis_history := tracked_full; crisis_log := [] |}
             {| call_db := db_ok; call_now := 0;
                call_message := msg_critical; call_session := "s1" |}))
       "s1"
     = map event_at [2; 3; 4; 5; 6; 7; 8; 9; 10; 9].
Proof.
  set (w := {| session_crisis_history := tracked_full; crisis_log := [] |}).
  set (c := {| call_db := db_ok; call_now := 0;
               call_message := msg_critical; call_session := "s1" |}).
  assert (Hw : bounded w).
  { intros sid events H. unfold w, tracked_full in H. cbn in H.
    apply lookup_singleton_Some in H as [_ <-]. cbn. lia. }
  split; [ exact Hw | ].
  destruct (C9_event_list_capped [c] w Hw) as [_ H].
  destruct (H c) as [_ Hfull].
  refine (eq_trans (Hfull _) _); reflexivity.
Defined.

(** C4, as the code has it: every analysis appends its entry to the
    session's tracked list, whatever the level; the threshold of 5 gates
    only the event handed to the database's crisis log. *)
Theorem C4_tracking_unconditional_logging_gated :
  forall (db : DatabaseManager) (now : Z) (message session_id : string)
         (w : World),
    let w' := snd (analyze_safety (SafetyService db now) message session_id w) in
    let v := verdict_of db w message session_id in
    history_of (session_crisis_history w') session_id
      = last_n 10 (history_of (session_crisis_history w) session_id
                   ++ [event_of db now w message session_id])
    /\ crisis_log w'
       = if 5 <=? level_of db w message session_id then
           match log_crisis_event db (crisis_data_of now session_id message v) with
           | Ok _ => crisis_log w ++ [crisis_data_of now session_id message v]
           | Raise _ => crisis_log w
           end
         else crisis_log w.
Proof.
  intros db now message session_id w w' v. split.
  - unfold w'. rewrite analyze_safety_tracking, update_tracking_history.
    destruct (decide (session_id = session_id)); [ reflexivity | congruence ].
  - unfold w'. rewrite analyze_safety_SafetyService. cbv zeta. fold v.
    destruct (5 <=? level_of db w message session_id); [ | reflexivity ].
    destruct (log_crisis_event db _); reflexivity.
Qed.

(** C4 as stated fails: a message with no match has level 0, yet its entry
    is appended to the session's tracked list. *)
Lemma C4_counterexample :
  let r := analyze_safety (SafetyService db_ok 0) "" "s1" w0 in
  crisis_level (fst r) < 5
  /\ history_of (session_crisis_history w0) "s1" = []
  /\ history_of (session_crisis_history (snd r)) "s1"
     = [{| Event.timestamp := 0;
           Event.crisis_level := 0;
           Event.crisis_type := "emotional_distress" |}].
Proof. vm_compute. repeat split; reflexivity. Qed.

(** ** The [increasing_severity] criterion *)

Lemma split_last_three {A} (xs : list A) :
  (3 <= length xs)%nat -> exists older a b c, xs = older ++ [a; b; c].
Proof.
  intros H.
  pose proof (take_drop (length xs - 3) xs) as Hsplit.
  pose proof (length_drop xs (length xs - 3)) as Hlen.
  destruct (drop (length xs - 3) xs) as [|a [|b [|c [|d rest]]]];
    cbn in Hlen; try lia.
  exists (take (length xs - 3) xs), a, b, c. now rewrite Hsplit.
Qed.

Lemma increasing_severity_of_snoc3 older a b c :
  increasing_severity_of (older ++ [a; b; c])
  = (Event.crisis_level a <? Event.crisis_level c)
    && (18 <? Event.crisis_level a + Event.crisis_level b + Event.crisis_level c).
Proof.
  unfold increasing_severity_of.
  replace (3 <=? len (older ++ [a; b; c])) with true.
  - change 3%nat with (length [a; b; c]). rewrite last_n_app. reflexivity.
  - symmetry. apply Z.leb_le. unfold len. rewrite length_app. cbn. lia.
Qed.

(** C7, as the code has it: [increasing_severity] is set exactly when the
    session has at least 3 recorded events, the last event's level is above
    the level of the third-last one, and the 3 levels sum to more than 18.
    The middle level enters the sum only. *)
Theorem C7_increasing_severity_last_above_first :
  forall (tracked : gmap string (list Event.t)) (session_id : string)
         (current_crisis_level : Z),
    increasing_severity
      (Assessment.criteria_met
         (check_escalation_needed tracked session_id current_crisis_level))
      = true
    <-> exists older a b c,
          history_of tracked session_id = older ++ [a; b; c]
          /\ Event.crisis_level a < Event.crisis_level c
          /\ 18 < Event.crisis_level a + Event.crisis_level b
                   + Event.crisis_level c.
Proof.
  intros tracked session_id lvl. cbn.
  set (h := history_of tracked session_id). split.
  - intros H.
    assert (Hlen : (3 <= length h)%nat).
    { unfold increasing_severity_of in H.
      destruct (3 <=? len h) eqn:E; [ | discriminate H ].
      apply Z.leb_le in E. unfold len in E. lia. }
    destruct (split_last_three h Hlen) as (older & a & b & c & Hh).
    exists older, a, b, c. rewrite Hh in H |- *.
    rewrite increasing_severity_of_snoc3 in H.
    apply andb_prop in H as [H1 H2].
    apply Z.ltb_lt in H1, H2. auto.
  - intros (older & a & b & c & Hh & H1 & H2).
    rewrite Hh, increasing_severity_of_snoc3.
    apply andb_true_intro. split; apply Z.ltb_lt; assumption.
Qed.

Lemma C7_increasing_severity_last_above_first_witness :
  increasing_severity
    (Assessment.criteria_met (check_escalation_needed tracked_5_9_6 "s1" 6))
  = true.
Proof.
  apply (C7_increasing_severity_last_above_first tracked_5_9_6 "s1" 6).
  exists [], (event_at 5), (event_at 9), (event_at 6).
  split; [ reflexivity | ]. cbn. lia.
Defined.

(** C7 as stated fails: with the last three levels 5, 9, 6 the criterion is
    set although the levels are not strictly increasing. *)
Lemma C7_counterexample :
  increasing_severity
    (Assessment.criteria_met (check_escalation_needed tracked_5_9_6 "s1" 6))
  = true
  /\ spec_strictly_increasing (history_of tracked_5_9_6 "s1") = false.
Proof. split; reflexivity. Qed.

(** ** The aggregation formula *)

(** The four [if] statements add up to the specification's bonus, and the
    three scores to its weighted sum. *)
Lemma total_score_weighted_sum k p c :
  (total_score k p c == spec_weighted_sum k p c)%Q.
Proof.
  unfold total_score, spec_weighted_sum, context_score, spec_context_bonus, ind.
  destruct (escalation_detected c), (emotional_deterioration c),
    (1 <? previous_interventions c), (high_risk_categories k) as [|cat cats];
    cbv zeta; try (change (len (@nil string)) with 0); ring.
Qed.

(** Between 0 and 10 it does not matter whether a number is truncated
    toward zero or rounded down: the two differ on negative numbers only. *)
Lemma to_int_clamp (x : Q) : clamp 0 10 (to_int x) = clamp 0 10 (Qfloor x).
Proof.
  destruct x as [n d]. unfold to_int, Qfloor, clamp. cbn [Qnum Qden].
  destruct (Z_lt_le_dec n 0) as [Hneg | Hpos].
  - assert (n ÷ Z.pos d <= 0) by (apply Z.quot_le_upper_bound; lia).
    assert (n / Z.pos d < 0) by (apply Z.div_lt_upper_bound; lia).
    lia.
  - rewrite Z.quot_div_nonneg by lia. reflexivity.
Qed.

(** C5, as the code has it: the level is the weighted sum with the
    specification's context bonus, rounded down to an integer ([int]
    truncates) and then clamped to [0, 10]. *)
Theorem C5_crisis_level_is_floored_sum :
  forall (k : KeywordAnalysis) (p : PatternAnalysis) (c : ContextAnalysis),
    _calculate_crisis_level k p c
    = clamp 0 10
        (Qfloor
           ((1 # 2) * total_severity k + (3 # 10) * inject_Z (severity p)
            + (2 * ind (escalation_detected c)
               + 1 * ind (emotional_deterioration c)
               + 1 * ind (1 <? previous_interventions c)
               + (3 # 2) * inject_Z (len (high_risk_categories k))))%Q).
Proof.
  intros k p c.
  change (_calculate_crisis_level k p c)
    with (clamp 0 10 (to_int (total_score k p c))).
  rewrite to_int_clamp. f_equal.
  apply Qfloor_comp. apply total_score_weighted_sum.
Qed.

(** C5 as stated fails: the single term below matches the hopelessness
    category (0.5) and the extreme-language pattern (0.3); the sum 0.8
    rounds to 1 but the code returns 0. *)
Lemma C5_counterexample :
  let k := _analyze_crisis_keywords "مستحيل" in
  let p := _analyze_crisis_patterns "مستحيل" in
  (spec_weighted_sum k p default_context == 8 # 10)%Q
  /\ _calculate_crisis_level k p default_context = 0
  /\ spec_crisis_level_rounded k p default_context = 1.
Proof. vm_compute. repeat split; reflexivity. Qed.

(** ** Monotonicity of the aggregation *)

Lemma category_weight_nonneg category : (0 <= category_weight category)%Q.
Proof.
  unfold category_weight.
  repeat match goal with |- context [String.eqb ?x ?y] =>
    destruct (String.eqb x y) end; discriminate.
Qed.

Lemma scan_keywords_found category text keywords :
  forall found sev,
    fst (scan_keywords category text keywords (found, sev))
    = found ++ List.filter (fun keyword => contains keyword text) keywords.
Proof.
  unfold scan_keywords.
  induction keywords as [|kw keywords IH]; intros found sev; cbn.
  - now rewrite app_nil_r.
  - destruct (contains kw text); rewrite IH; [ | reflexivity ].
    now rewrite <- app_assoc.
Qed.

Lemma scan_keywords_severity_ge category text keywords :
  forall found sev,
    (sev <= snd (scan_keywords category text keywords (found, sev)))%Q.
Proof.
  unfold scan_keywords.
  induction keywords as [|kw keywords IH]; intros found sev; cbn.
  - apply Qle_refl.
  - destruct (contains kw text); [ | apply IH ].
    eapply Qle_trans; [ | apply IH ].
    pose proof (category_weight_nonneg category). lra.
Qed.

Section TwoMessages.
Variables a b : string.

Lemma found_also_cons t words :
  found_also a b (t :: words) ->
  (contains t a = true -> contains t b = true) /\ found_also a b words.
Proof.
  intros H. split.
  - apply H. now left.
  - intros u Hu. apply H. now right.
Qed.

Lemma count_in_mono words :
  found_also a b words -> count_in words a <= count_in words b.
Proof.
  unfold count_in, len. induction words as [|t words IH]; intros H.
  - reflexivity.
  - apply found_also_cons in H as [Ht Hw]. specialize (IH Hw). cbn.
    destruct (contains t a); [ rewrite (Ht eq_refl) | destruct (contains t b) ];
      cbn [length]; lia.
Qed.

Lemma scan_keywords_severity_mono category keywords :
  found_also a b keywords ->
  forall f1 s1 f2 s2,
    (s1 <= s2)%Q ->
    (snd (scan_keywords category a keywords (f1, s1))
     <= snd (scan_keywords category b keywords (f2, s2)))%Q.
Proof.
  unfold scan_keywords.
  induction keywords as [|kw keywords IH]; intros H f1 s1 f2 s2 Hs; cbn.
  - exact Hs.
  - apply found_also_cons in H as [Hkw Hw].
    pose proof (category_weight_nonneg category) as Hwt.
    destruct (contains kw a).
    + rewrite (Hkw eq_refl). apply IH; [ exact Hw | lra ].
    + destruct (contains kw b); apply IH; try exact Hw; lra.
Qed.

Lemma scan_category_mono category keywords km1 t1 km2 t2 :
  found_also a b keywords ->
  (t1 <= t2)%Q ->
  (length (List.filter is_high_risk km1)
   <= length (List.filter is_high_risk km2))%nat ->
  (snd (scan_category a (km1, t1) (category, keywords))
   <= snd (scan_category b (km2, t2) (category, keywords)))%Q
  /\ (length (List.filter is_high_risk
                (fst (scan_category a (km1, t1) (category, keywords))))
      <= length (List.filter is_high_risk
                   (fst (scan_category b (km2, t2) (category, keywords)))))%nat.
Proof.
  intros H Ht Hkm. unfold scan_category.
  pose proof (scan_keywords_found category a keywords [] 0%Q) as Hf1.
  pose proof (scan_keywords_found category b keywords [] 0%Q) as Hf2.
  pose proof (scan_keywords_severity_mono category keywords H
                [] 0%Q [] 0%Q (Qle_refl 0)) as Hsev.
  pose proof (scan_keywords_severity_ge category b keywords [] 0%Q) as Hge.
  pose proof (count_in_mono keywords H) as Hcount.
  unfold count_in, len in Hcount.
  destruct (scan_keywords category a keywords ([], 0%Q)) as [f1 s1].
  destruct (scan_keywords category b keywords ([], 0%Q)) as [f2 s2].
  cbn [fst snd app] in Hf1, Hf2, Hsev, Hge. rewrite <- Hf1, <- Hf2 in Hcount.
  destruct f1 as [|x1 f1], f2 as [|x2 f2]; cbn [fst snd].
  - auto.
  - split; [ lra | ].
    rewrite List.filter_app, length_app. lia.
  - cbn [length] in Hcount. lia.
  - split; [ lra | ].
    rewrite !List.filter_app, !length_app.
    unfold is_high_risk at 2 4. cbn [List.filter fst snd cm_count].
    replace (0 <? len (x1 :: f1)) with true
      by (symmetry; apply Z.ltb_lt; unfold len; cbn [length]; lia).
    replace (0 <? len (x2 :: f2)) with true
      by (symmetry; apply Z.ltb_lt; unfold len; cbn [length]; lia).
    destruct (str_in category _); cbn [andb length]; lia.
Qed.

Lemma scan_categories_mono table :
  (forall entry, In entry table -> found_also a b (snd entry)) ->
  forall km1 t1 km2 t2,
    (t1 <= t2)%Q ->
    (length (List.filter is_high_risk km1)
     <= length (List.filter is_high_risk km2))%nat ->
    (snd (scan_categories a table (km1, t1))
     <= snd (scan_categories b table (km2, t2)))%Q
    /\ (length (List.filter is_high_risk (fst (scan_categories a table (km1, t1))))
        <= length (List.filter is_high_risk
                     (fst (scan_categories b table (km2, t2)))))%nat.
Proof.
  unfold scan_categories.
  induction table as [|[category keywords] table IH];
    intros H km1 t1 km2 t2 Ht Hkm; cbn [fold_left].
  - cbn. auto.
  - destruct (scan_category_mono category keywords km1 t1 km2 t2)
      as [Ht' Hkm']; auto.
    { apply (H (category, keywords)). now left. }
    destruct (scan_category a (km1, t1) (category, keywords)) as [km1' t1'].
    destruct (scan_category b (km2, t2) (category, keywords)) as [km2' t2'].
    apply IH; auto.
    intros entry Hin. apply H. now right.
Qed.

End TwoMessages.

Lemma matches_subset_keywords m1 m2 :
  matches_subset m1 m2 = true ->
  forall entry, In entry crisis_keywords ->
    found_also (lower m1) (lower m2) (snd entry).
Proof.
  intros H entry Hentry t Ht Ha.
  unfold matches_subset in H. rewrite forallb_forall in H.
  assert (Hin : In t all_terms).
  { unfold all_terms. apply in_or_app. left.
    apply in_concat. exists (snd entry). split; [ | exact Ht ].
    apply in_map, Hentry. }
  specialize (H t Hin). rewrite Ha in H. exact H.
Qed.

Lemma matches_subset_patterns m1 m2 words :
  matches_subset m1 m2 = true ->
  incl words all_terms ->
  found_also (lower m1) (lower m2) words.
Proof.
  intros H Hincl t Ht Ha.
  unfold matches_subset in H. rewrite forallb_forall in H.
  specialize (H t (Hincl t Ht)). rewrite Ha in H. exact H.
Qed.

Lemma pattern_words_in_all_terms :
  incl finality_words all_terms /\ incl goodbye_words all_terms
  /\ incl extreme_words all_terms /\ incl worthless_words all_terms.
Proof.
  unfold all_terms. repeat split; intros t Ht; rewrite !in_app_iff; auto 6.
Qed.

Lemma keyword_analysis_mono m1 m2 :
  matches_subset m1 m2 = true ->
  (total_severity (_analyze_crisis_keywords m1)
   <= total_severity (_analyze_crisis_keywords m2))%Q
  /\ len (high_risk_categories (_analyze_crisis_keywords m1))
     <= len (high_risk_categories (_analyze_crisis_keywords m2)).
Proof.
  intros H. unfold _analyze_crisis_keywords.
  destruct (scan_categories_mono (lower m1) (lower m2) crisis_keywords
              (matches_subset_keywords m1 m2 H) [] 0%Q [] 0%Q)
    as [Ht Hkm]; [ apply Qle_refl | reflexivity | ].
  destruct (scan_categories (lower m1) crisis_keywords ([], 0%Q)) as [km1 t1].
  destruct (scan_categories (lower m2) crisis_keywords ([], 0%Q)) as [km2 t2].
  cbn [fst snd total_severity high_risk_categories] in *. split.
  - apply Q.min_le_compat_l, Ht.
  - unfold len. rewrite !length_map. lia.
Qed.

Lemma pattern_analysis_mono m1 m2 :
  matches_subset m1 m2 = true ->
  severity (_analyze_crisis_patterns m1) <= severity (_analyze_crisis_patterns m2).
Proof.
  intros H.
  destruct pattern_words_in_all_terms as (Hf & Hg & He & Hw).
  pose proof (count_in_mono _ _ _ (matches_subset_patterns m1 m2 _ H Hf)).
  pose proof (count_in_mono _ _ _ (matches_subset_patterns m1 m2 _ H Hg)).
  pose proof (count_in_mono _ _ _ (matches_subset_patterns m1 m2 _ H He)).
  pose proof (count_in_mono _ _ _ (matches_subset_patterns m1 m2 _ H Hw)).
  unfold _analyze_crisis_patterns, pattern_severity; cbn [severity
    finality_statements goodbye_messages past_tense_future extreme_language
    isolation_expressions worthlessness burden_statements].
  lia.
Qed.

(** C8: for a fixed session context, a message in which every term and
    phrase of the first message is still found (and possibly more) does not
    get a lower crisis level. *)
Theorem C8_more_matches_never_lower :
  forall (m1 m2 : string) (c : ContextAnalysis),
    matches_subset m1 m2 = true ->
    _calculate_crisis_level (_analyze_crisis_keywords m1)
      (_analyze_crisis_patterns m1) c
    <= _calculate_crisis_level (_analyze_crisis_keywords m2)
         (_analyze_crisis_patterns m2) c.
Proof.
  intros m1 m2 c H.
  destruct (keyword_analysis_mono m1 m2 H) as [Hk Hh].
  pose proof (pattern_analysis_mono m1 m2 H) as Hp.
  set (k1 := _analyze_crisis_keywords m1) in *.
  set (k2 := _analyze_crisis_keywords m2) in *.
  set (p1 := _analyze_crisis_patterns m1) in *.
  set (p2 := _analyze_crisis_patterns m2) in *.
  change (clamp 0 10 (to_int (total_score k1 p1 c))
          <= clamp 0 10 (to_int (total_score k2 p2 c))).
  rewrite !to_int_clamp.
  assert (Hfloor : Qfloor (total_score k1 p1 c) <= Qfloor (total_score k2 p2 c)).
  { apply Qfloor_resp_le.
    rewrite !total_score_weighted_sum.
    unfold spec_weighted_sum, spec_context_bonus.
    rewrite Zle_Qle in Hh, Hp. lra. }
  unfold clamp. lia.
Qed.

Lemma C8_more_matches_never_lower_witness :
  matches_subset "انتحار" "انتحار وداع" = true
  /\ _calculate_crisis_level (_analyze_crisis_keywords "انتحار")
       (_analyze_crisis_patterns "انتحار") default_context
     <= _calculate_crisis_level (_analyze_crisis_keywords "انتحار وداع")
          (_analyze_crisis_patterns "انتحار وداع") default_context.
Proof.
  assert (H : matches_subset "انتحار" "انتحار وداع" = true)
    by (vm_compute; reflexivity).
  split; [ exact H | ].
  exact (C8_more_matches_never_lower "انتحار" "انتحار وداع" default_context H).
Defined.

(** ** Messages with a suicide-category term *)

Lemma scan_keywords_hit category text keywords :
  (exists kw, In kw keywords /\ contains kw text = true) ->
  forall found sev,
    (sev + category_weight category
     <= snd (scan_keywords category text keywords (found, sev)))%Q.
Proof.
  induction keywords as [|kw keywords IH]; intros (t & Hin & Ht) found sev.
  - destruct Hin.
  - unfold scan_keywords. cbn [fold_left].
    destruct (contains kw text) eqn:E.
    + apply (scan_keywords_severity_ge category text keywords).
    + destruct Hin as [-> | Hin]; [ congruence | ].
      apply (IH (ex_intro _ t (conj Hin Ht))).
Qed.

(** A round of the category loop only appends to the matches and only
    adds to the total. *)
Lemma scan_category_extends text km total entry :
  (exists ext, fst (scan_category text (km, total) entry) = km ++ ext)
  /\ (total <= snd (scan_category text (km, total) entry))%Q.
Proof.
  destruct entry as [category keywords]. unfold scan_category.
  pose proof (scan_keywords_severity_ge category text keywords [] 0%Q) as Hge.
  destruct (scan_keywords category text keywords ([], 0%Q)) as [found sev].
  cbn [snd] in Hge.
  destruct found as [|x found]; cbn [fst snd].
  - split; [ exists []; now rewrite app_nil_r | apply Qle_refl ].
  - split; [ eexists; reflexivity | lra ].
Qed.

Lemma scan_categories_extends text table :
  forall km total,
    (exists ext, fst (scan_categories text table (km, total)) = km ++ ext)
    /\ (total <= snd (scan_categories text table (km, total)))%Q.
Proof.
  unfold scan_categories.
  induction table as [|entry table IH]; intros km total; cbn [fold_left].
  - split; [ exists []; now rewrite app_nil_r | apply Qle_refl ].
  - destruct (scan_category_extends text km total entry) as [[ext1 H1] Ht1].
    destruct (scan_category text (km, total) entry) as [km1 total1].
    cbn [fst snd] in H1, Ht1. subst km1.
    destruct (IH (km ++ ext1) total1) as [[ext2 H2] Ht2].
    split.
    + exists (ext1 ++ ext2). now rewrite H2, app_assoc.
    + eapply Qle_trans; eassumption.
Qed.

(** The round of the suicide category when one of its terms is found. *)
Lemma scan_category_suicide text :
  (exists kw, In kw (keywords_of "suicide") /\ contains kw text = true) ->
  exists x found sev,
    scan_category text ([], 0%Q) ("suicide", keywords_of "suicide")
    = ([("suicide", {| cm_matches := x :: found;
                       cm_count := len (x :: found);
                       cm_severity := sev |})], (0 + sev)%Q)
    /\ (3 <= sev)%Q.
Proof.
  intros H.
  pose proof (scan_keywords_hit "suicide" text (keywords_of "suicide") H [] 0%Q)
    as Hsev.
  pose proof (scan_keywords_found "suicide" text (keywords_of "suicide") [] 0%Q)
    as Hfound.
  unfold scan_category.
  destruct (scan_keywords "suicide" text (keywords_of "suicide") ([], 0%Q))
    as [found sev].
  cbn [fst snd app] in Hsev, Hfound.
  destruct found as [|x found].
  - exfalso. destruct H as (kw & Hin & Hkw).
    assert (Hx : In kw []); [ | destruct Hx ].
    rewrite Hfound. apply filter_In. auto.
  - exists x, found, sev. split; [ reflexivity | ].
    change (category_weight "suicide") with 3%Q in Hsev. lra.
Qed.

(** A message with a suicide term: the suicide category heads the matches,
    counts as high-risk, and the total severity is at least 3. *)
Lemma suicide_term_keyword_analysis message :
  has_suicide_term message = true ->
  (exists m rest,
      matches (_analyze_crisis_keywords message) = ("suicide", m) :: rest)
  /\ (3 <= total_severity (_analyze_crisis_keywords message))%Q
  /\ 1 <= len (high_risk_categories (_analyze_crisis_keywords message)).
Proof.
  intros H. unfold has_suicide_term in H. apply existsb_exists in H.
  unfold _analyze_crisis_keywords.
  set (text := lower message) in *.
  change (scan_categories text crisis_keywords ([], 0%Q))
    with (scan_categories text (List.tl crisis_keywords)
            (scan_category text ([], 0%Q) ("suicide", keywords_of "suicide"))).
  destruct (scan_category_suicide text H) as (x & found & sev & -> & Hsev).
  set (m := {| cm_matches := x :: found |}).
  destruct (scan_categories_extends text (List.tl crisis_keywords)
              [("suicide", m)] (0 + sev)%Q) as [[ext Hext] Htotal].
  destruct (scan_categories text (List.tl crisis_keywords) _) as [km total].
  cbn [fst snd app] in Hext, Htotal. subst km.
  cbn [matches total_severity high_risk_categories]. split; [ | split ].
  - exists m, ext. reflexivity.
  - apply Q.min_glb; [ discriminate | lra ].
  - assert (Hhr : is_high_risk ("suicide", m) = true).
    { unfold is_high_risk, m, len. cbn [fst snd cm_count length].
      apply andb_true_intro. split; [ reflexivity | apply Z.ltb_lt; lia ]. }
    cbn [List.filter]. rewrite Hhr. unfold len. cbn [map length]. lia.
Qed.

Lemma count_in_nonneg words text : 0 <= count_in words text.
Proof. unfold count_in, len. lia. Qed.

Lemma pattern_analysis_severity_nonneg message :
  0 <= severity (_analyze_crisis_patterns message).
Proof.
  unfold _analyze_crisis_patterns, pattern_severity. cbn.
  set (text := lower message).
  pose proof (count_in_nonneg finality_words text).
  pose proof (count_in_nonneg goodbye_words text).
  pose proof (count_in_nonneg extreme_words text).
  pose proof (count_in_nonneg worthless_words text).
  lia.
Qed.

Lemma ind_nonneg b : (0 <= ind b)%Q.
Proof. destruct b; discriminate. Qed.

Lemma suicide_term_level message c :
  has_suicide_term message = true ->
  3 <= _calculate_crisis_level (_analyze_crisis_keywords message)
         (_analyze_crisis_patterns message) c.
Proof.
  intros H.
  destruct (suicide_term_keyword_analysis message H) as (_ & Hsev & Hhr).
  pose proof (pattern_analysis_severity_nonneg message) as Hp.
  set (k := _analyze_crisis_keywords message) in *.
  set (p := _analyze_crisis_patterns message) in *.
  change (3 <= clamp 0 10 (to_int (total_score k p c))).
  rewrite to_int_clamp.
  assert (Hfloor : 3 <= Qfloor (total_score k p c)).
  { rewrite <- (Qfloor_Z 3). apply Qfloor_resp_le.
    rewrite total_score_weighted_sum.
    unfold spec_weighted_sum, spec_context_bonus.
    pose proof (ind_nonneg (escalation_detected c)).
    pose proof (ind_nonneg (emotional_deterioration c)).
    pose proof (ind_nonneg (1 <? previous_interventions c)).
    rewrite Zle_Qle in Hhr, Hp.
    change (inject_Z 3) with 3%Q. change (inject_Z 1) with 1%Q in Hhr.
    change (inject_Z 0) with 0%Q in Hp. lra. }
  unfold clamp. lia.
Qed.

(** C6, as the code has it: a message with a suicide-category term, in a
    session with no stored conversation and with the database accepting the
    event, is classified "suicide_risk" with a level of at least 3; its
    urgency is "low" at levels 3 and 4, "urgent" at 5 and 6 and
    "immediate" from 7 on. *)
Theorem C6_suicide_term_verdict :
  forall (db : DatabaseManager) (now : Z) (message session_id : string)
         (w : World),
    has_suicide_term message = true ->
    get_session_history db session_id = Ok [] ->
    (forall d, log_crisis_event db d = Ok tt) ->
    let v := fst (analyze_safety (SafetyService db now) message session_id w) in
    crisis_type v = "suicide_risk"
    /\ 3 <= crisis_level v
    /\ urgency v = (if 7 <=? crisis_level v then "immediate"
                    else if 5 <=? crisis_level v then "urgent"
                    else "low").
Proof.
  intros db now message session_id w Hterm Hhist Hlog.
  rewrite analyze_safety_SafetyService. cbv zeta.
  assert (Hv : fst (if 5 <=? level_of db w message session_id
                    then match log_crisis_event db
                                 (crisis_data_of now session_id message
                                    (verdict_of db w message session_id)) with
                         | Ok _ =>
                             (verdict_of db w message session_id,
                              {| session_crisis_history :=
                                   session_crisis_history
                                     (tracked_world db now w message session_id);
                                 crisis_log :=
                                   crisis_log w ++
                                   [crisis_data_of now session_id message
                                      (verdict_of db w message session_id)] |})
                         | Raise e =>
                             (fallback_verdict e,
                              tracked_world db now w message session_id)
                         end
                    else (verdict_of db w message session_id,
                          tracked_world db now w message session_id))
               = verdict_of db w message session_id).
  { rewrite Hlog. now destruct (5 <=? level_of db w message session_id). }
  rewrite Hv. clear Hv. cbn [crisis_type crisis_level urgency verdict_of].
  assert (Hc : context_of db w message session_id = default_context).
  { unfold context_of, _analyze_session_context. now rewrite Hhist. }
  assert (Hty : type_of message = "suicide_risk").
  { destruct (suicide_term_keyword_analysis message Hterm)
      as ((m & rest & Hm) & _ & _).
    unfold type_of, _determine_crisis_type. now rewrite Hm. }
  pose proof (suicide_term_level message (context_of db w message session_id)
                Hterm) as Hlvl.
  fold (level_of db w message session_id) in Hlvl.
  split; [ exact Hty | ]. split; [ exact Hlvl | ].
  unfold urgency_of. rewrite Hty, Hc.
  set (lvl := level_of db w message session_id) in *.
  unfold _assess_urgency. cbn [str_in existsb String.eqb Ascii.eqb Bool.eqb
    orb escalation_detected default_context andb].
  destruct (9 <=? lvl) eqn:E9, (7 <=? lvl) eqn:E7, (5 <=? lvl) eqn:E5,
    (3 <=? lvl) eqn:E3; try reflexivity; lia.
Qed.

Lemma C6_suicide_term_verdict_witness :
  has_suicide_term "انتحار" = true
  /\ crisis_type (fst (analyze_safety (SafetyService db_ok 0) "انتحار" "s1" w0))
     = "suicide_risk"
  /\ 3 <= crisis_level (fst (analyze_safety (SafetyService db_ok 0)
                               "انتحار" "s1" w0)).
Proof.
  assert (H : has_suicide_term "انتحار" = true) by (vm_compute; reflexivity).
  split; [ exact H | ].
  destruct (C6_suicide_term_verdict db_ok 0 "انتحار" "s1" w0 H eq_refl
              (fun _ => eq_refl)) as (Hty & Hlvl & _).
  split; [ exact Hty | exact Hlvl ].
Defined.

(** C6 as stated fails: the single suicide term below, in a fresh session,
    gives level 3 and urgency "low". *)
Lemma C6_counterexample :
  let v := fst (analyze_safety (SafetyService db_ok 0) "انتحار" "s1" w0) in
  has_suicide_term "انتحار" = true
  /\ crisis_type v = "suicide_risk"
  /\ crisis_level v = 3
  /\ urgency v = "low".
Proof. vm_compute. repeat split; reflexivity. Qed.

(** ** Agreement of the exact score with binary64 arithmetic *)

Lemma agrees_on_grid_true : Binary64.agrees_on_grid = true.
Proof. vm_compute. reflexivity. Qed.

(** The same statement with the rows of the grid spelled out. *)
Lemma agrees_on_grid_rows :
  ltac:(let t := eval unfold Binary64.agrees_on_grid in
                   (Binary64.agrees_on_grid = true) in exact t).
Proof. vm_compute. reflexivity. Qed.

Lemma forallb_In {A} (f : A -> bool) (l : list A) (x : A) :
  forallb f l = true -> In x l -> f x = true.
Proof. intros H Hin. rewrite forallb_forall in H. exact (H x Hin). Qed.

Lemma agrees_at_grid halves sev esc det prev n_high :
  0 <= halves <= 20 -> 0 <= sev <= 10 -> 0 <= n_high <= 7 ->
  Binary64.agrees_at halves sev esc det prev n_high = true.
Proof.
  intros Hh Hs Hn.
  assert (Hbool : forall b : bool, In b [false; true])
    by (intros []; cbn; auto).
  assert (Hseq : forall m n x, m <= x < m + n -> In x (seqZ m n))
    by (intros m n x Hx; apply list_elem_of_In, elem_of_seqZ, Hx).
  pose proof agrees_on_grid_rows as H.
  apply (forallb_In _ _ halves) in H; [ | apply Hseq; lia ].
  apply (forallb_In _ _ sev) in H; [ | apply Hseq; lia ].
  apply (forallb_In _ _ esc) in H; [ | apply Hbool ].
  apply (forallb_In _ _ det) in H; [ | apply Hbool ].
  apply (forallb_In _ _ prev) in H; [ | apply Hbool ].
  apply (forallb_In _ _ n_high) in H; [ | apply Hseq; lia ].
  exact H.
Qed.

(** [int] gives equal rationals the same integer. *)
Lemma to_int_comp (x y : Q) : (x == y)%Q -> to_int x = to_int y.
Proof.
  intros H.
  assert (Hval : forall q : Q,
             to_int q = if 0 <=? Qnum q then Qfloor q else - Qfloor (- q)).
  { intros [n d]. unfold to_int, Qfloor. cbn [Qnum Qden Qopp].
    destruct (0 <=? n) eqn:E.
    - apply Z.leb_le in E. now apply Z.quot_div_nonneg.
    - apply Z.leb_gt in E.
      rewrite <- (Z.opp_involutive n) at 1.
      rewrite Z.quot_opp_l by lia.
      now rewrite Z.quot_div_nonneg by lia. }
  rewrite !Hval.
  assert (Hsign : (0 <=? Qnum x) = (0 <=? Qnum y)).
  { unfold Qeq in H. destruct (0 <=? Qnum x) eqn:Ex, (0 <=? Qnum y) eqn:Ey;
      try reflexivity.
    - apply Z.leb_le in Ex. apply Z.leb_gt in Ey. nia.
    - apply Z.leb_gt in Ex. apply Z.leb_le in Ey. nia. }
  rewrite Hsign. destruct (0 <=? Qnum y).
  - apply Qfloor_comp, H.
  - f_equal. apply Qfloor_comp. now rewrite H.
Qed.

Lemma half_integral_plus p q :
  half_integral p -> half_integral q -> half_integral (p + q).
Proof.
  intros (n & Hn & Hp) (m & Hm & Hq). exists (n + m). split; [ lia | ].
  rewrite Hp, Hq. unfold Qeq, Qplus. cbn. lia.
Qed.

Lemma half_integral_weight category : half_integral (category_weight category).
Proof.
  unfold category_weight.
  repeat match goal with |- context [String.eqb ?x ?y] =>
    destruct (String.eqb x y) end;
    [ exists 6 | exists 5 | exists 5 | exists 4 | exists 2 ];
    (split; [ lia | reflexivity ]).
Qed.

Lemma half_integral_zero : half_integral 0.
Proof. exists 0. split; [ lia | reflexivity ]. Qed.

Lemma scan_keywords_half_integral category text keywords :
  forall found sev,
    half_integral sev ->
    half_integral (snd (scan_keywords category text keywords (found, sev))).
Proof.
  unfold scan_keywords.
  induction keywords as [|kw keywords IH]; intros found sev H; cbn.
  - exact H.
  - destruct (contains kw text); apply IH; [ | exact H ].
    apply half_integral_plus; [ exact H | apply half_integral_weight ].
Qed.

(** A round of the category loop keeps the total a number of halves and
    adds at most one entry to the matches. *)
Lemma scan_category_grid text km total entry :
  half_integral total ->
  half_integral (snd (scan_category text (km, total) entry))
  /\ (length (fst (scan_category text (km, total) entry)) <= S (length km))%nat.
Proof.
  intros H. destruct entry as [category keywords]. unfold scan_category.
  pose proof (scan_keywords_half_integral category text keywords [] 0%Q
                half_integral_zero) as Hsev.
  destruct (scan_keywords category text keywords ([], 0%Q)) as [found sev].
  cbn [snd] in Hsev.
  destruct found as [|x found]; cbn [fst snd].
  - split; [ exact H | lia ].
  - split; [ now apply half_integral_plus | ].
    rewrite length_app. cbn. lia.
Qed.

Lemma scan_categories_grid text table :
  forall km total,
    half_integral total ->
    half_integral (snd (scan_categories text table (km, total)))
    /\ (length (fst (scan_categories text table (km, total)))
        <= length km + length table)%nat.
Proof.
  unfold scan_categories.
  induction table as [|entry table IH]; intros km total H; cbn [fold_left].
  - cbn. split; [ exact H | lia ].
  - destruct (scan_category_grid text km total entry H) as [H1 Hlen1].
    destruct (scan_category text (km, total) entry) as [km1 total1].
    cbn [fst snd] in H1, Hlen1.
    destruct (IH km1 total1 H1) as [H2 Hlen2].
    split; [ exact H2 | cbn [length]; lia ].
Qed.

(** The keyword analysis of any message lies on the grid. *)
Lemma keyword_analysis_grid message :
  (exists halves, 0 <= halves <= 20
     /\ (total_severity (_analyze_crisis_keywords message) == halves # 2)%Q)
  /\ 0 <= len (high_risk_categories (_analyze_crisis_keywords message)) <= 7.
Proof.
  unfold _analyze_crisis_keywords.
  destruct (scan_categories_grid (lower message) crisis_keywords [] 0%Q
              half_integral_zero) as [(n & Hn & Htotal) Hlen].
  destruct (scan_categories (lower message) crisis_keywords ([], 0%Q))
    as [km total].
  cbn [fst snd total_severity high_risk_categories] in *. split.
  - exists (Z.min 20 n). split; [ lia | ].
    rewrite Htotal.
    destruct (Z.min_spec 20 n) as [[Hlt ->] | [Hle ->]].
    + rewrite Q.min_l; [ reflexivity | ]. unfold Qle. cbn. lia.
    + rewrite Q.min_r; [ reflexivity | ]. unfold Qle. cbn. lia.
  - unfold len. rewrite length_map.
    pose proof (List.filter_length_le is_high_risk km). cbn in Hlen. lia.
Qed.

Lemma pattern_analysis_severity_range message :
  0 <= severity (_analyze_crisis_patterns message) <= 10.
Proof.
  pose proof (pattern_analysis_severity_nonneg message) as H.
  split; [ exact H | ].
  unfold _analyze_crisis_patterns. cbn [severity]. lia.
Qed.

(** For every message and every session context, evaluating the score in
    binary64 and truncating it gives the integer the exact score truncates
    to, so the crisis level of the embedding is the crisis level of the
    Python code. *)
Theorem binary64_score_agrees :
  forall (message : string) (c : ContextAnalysis),
    let k := _analyze_crisis_keywords message in
    let p := _analyze_crisis_patterns message in
    exists halves,
      (total_severity k == halves # 2)%Q
      /\ Binary64.trunc
           (Binary64.total halves (severity p)
              (escalation_detected c) (emotional_deterioration c)
              (1 <? previous_interventions c)
              (len (high_risk_categories k)))
         = Some (to_int (total_score k p c)).
Proof.
  intros message c k p.
  destruct (keyword_analysis_grid message) as [(halves & Hh & Htotal) Hn].
  pose proof (pattern_analysis_severity_range message) as Hs.
  fold k in Htotal, Hn. fold p in Hs.
  exists halves. split; [ exact Htotal | ].
  pose proof (agrees_at_grid halves (severity p)
                (escalation_detected c) (emotional_deterioration c)
                (1 <? previous_interventions c)
                (len (high_risk_categories k)) Hh Hs Hn) as H.
  unfold Binary64.agrees_at in H.
  destruct (Binary64.trunc _) as [z|]; [ | discriminate H ].
  apply Z.eqb_eq in H. rewrite H. f_equal.
  apply to_int_comp.
  rewrite total_score_weighted_sum.
  unfold grid_score, spec_weighted_sum, spec_context_bonus.
  rewrite Htotal. ring.
Qed.

(** * Further properties of the service *)

(** ** The verdict's flags and shape *)

(** Both flags of the verdict are threshold tests on the level the verdict
    itself reports: intervention from 7, escalation from 9.  This holds for
    any helpers and on the fallback path too (level 8: intervention, no
    escalation), so escalation never comes without intervention. *)
Theorem verdict_flags_are_threshold_tests :
  forall (self : Methods) (message session_id : string) (w : World),
    let v := fst (analyze_safety self message session_id w) in
    requires_intervention v = (7 <=? crisis_level v)
    /\ requires_escalation v = (9 <=? crisis_level v)
    /\ implb (requires_escalation v) (requires_intervention v) = true.
Proof.
  intros self message session_id w v.
  assert (H : requires_intervention v = (7 <=? crisis_level v)
              /\ requires_escalation v = (9 <=? crisis_level v)).
  { unfold v, analyze_safety.
    destruct (analyze_safety_try self message session_id w) as [[a|e] w'] eqn:E.
    - destruct (analyze_safety_try_ok _ _ _ _ _ _ E) as (He & Hi & _).
      cbn. auto.
    - cbn. auto. }
  destruct H as [Hi He]. repeat split; try assumption.
  rewrite Hi, He.
  destruct (9 <=? crisis_level v) eqn:E9; [ | reflexivity ].
  apply Z.leb_le in E9. cbn.
  apply Z.leb_le. lia.
Qed.

(** With the class's own helpers the only step that can raise is the
    database write of the crisis event.  A verdict that carries an error is
    therefore the fallback verdict of a rejected write, and the message
    scored at least 5. *)
Theorem fallback_requires_log_failure :
  forall (db : DatabaseManager) (now : Z) (message session_id : string)
         (w : World) (e : string),
    error (fst (analyze_safety (SafetyService db now) message session_id w))
      = Some e ->
    5 <= level_of db w message session_id
    /\ log_crisis_event db
         (crisis_data_of now session_id message
            (verdict_of db w message session_id)) = Raise e
    /\ fst (analyze_safety (SafetyService db now) message session_id w)
       = fallback_verdict e.
Proof.
  intros db now message session_id w e.
  rewrite analyze_safety_SafetyService. cbv zeta.
  destruct (5 <=? level_of db w message session_id) eqn:E5.
  - apply Z.leb_le in E5.
    destruct (log_crisis_event db _) as [u|e'] eqn:El; cbn.
    + discriminate.
    + intros [= ->]. auto.
  - cbn. discriminate.
Qed.

Lemma fallback_requires_log_failure_witness :
  error (fst (analyze_safety (SafetyService db_log_fails 0)
                msg_critical "s1" w0)) = Some "database unavailable"
  /\ 5 <= level_of db_log_fails w0 msg_critical "s1"
  /\ fst (analyze_safety (SafetyService db_log_fails 0) msg_critical "s1" w0)
     = fallback_verdict "database unavailable".
Proof.
  assert (H : error (fst (analyze_safety (SafetyService db_log_fails 0)
                            msg_critical "s1" w0))
              = Some "database unavailable") by (vm_compute; reflexivity).
  split; [ exact H | ].
  destruct (fallback_requires_log_failure db_log_fails 0 msg_critical "s1" w0
              "database unavailable" H) as (H5 & _ & Hv).
  split; [ exact H5 | exact Hv ].
Defined.

(** ** Urgency *)

(** Reduces every comparison of a level with a literal bound. *)
Ltac split_level lvl :=
  destruct (Z.leb_spec 9 lvl), (Z.leb_spec 7 lvl), (Z.leb_spec 6 lvl),
    (Z.leb_spec 5 lvl), (Z.leb_spec 3 lvl); try lia.

Lemma assess_urgency_in_tiers lvl ty c :
  In (_assess_urgency lvl ty c) urgency_tiers.
Proof.
  unfold _assess_urgency, urgency_tiers.
  destruct (str_in ty _), (escalation_detected c); split_level lvl;
    cbn; auto 10.
Qed.

(** [_assess_urgency] always answers with one of the five tiers; it
    answers "none" exactly below level 3 and "low" exactly at levels 3
    and 4, whatever the crisis type and the session context. *)
Theorem assess_urgency_tiers :
  forall (lvl : Z) (ty : string) (c : ContextAnalysis),
    In (_assess_urgency lvl ty c) urgency_tiers
    /\ (_assess_urgency lvl ty c = "none" <-> lvl < 3)
    /\ (_assess_urgency lvl ty c = "low" <-> 3 <= lvl < 5).
Proof.
  intros lvl ty c. split; [ apply assess_urgency_in_tiers | ].
  unfold _assess_urgency.
  destruct (str_in ty _), (escalation_detected c); split_level lvl;
    cbn; repeat split; intros; try lia; try discriminate; reflexivity.
Qed.

(** For a fixed crisis type and session context, a higher level never
    gets a lower urgency tier. *)
Theorem assess_urgency_monotone :
  forall (l1 l2 : Z) (ty : string) (c : ContextAnalysis),
    l1 <= l2 ->
    urgency_rank (_assess_urgency l1 ty c)
    <= urgency_rank (_assess_urgency l2 ty c).
Proof.
  intros l1 l2 ty c H. unfold _assess_urgency.
  destruct (str_in ty _), (escalation_detected c);
    split_level l1; split_level l2; cbn; lia.
Qed.

Lemma assess_urgency_monotone_witness :
  urgency_rank (_assess_urgency 4 "suicide_risk" default_context)
  <= urgency_rank (_assess_urgency 5 "suicide_risk" default_context).
Proof.
  apply (assess_urgency_monotone 4 5 "suicide_risk" default_context). lia.
Defined.

(** With the class's own helpers, the verdict's urgency is one of the five
    tiers exactly when the verdict carries no error: the fallback verdict
    says "high", which is not a tier. *)
Theorem verdict_urgency_vocabulary :
  forall (db : DatabaseManager) (now : Z) (message session_id : string)
         (w : World),
    let v := fst (analyze_safety (SafetyService db now) message session_id w) in
    In (urgency v) urgency_tiers <-> error v = None.
Proof.
  intros db now message session_id w v. unfold v.
  rewrite analyze_safety_SafetyService. cbv zeta.
  assert (Hn : In (urgency (verdict_of db w message session_id)) urgency_tiers
               <-> error (verdict_of db w message session_id) = None).
  { cbn [urgency error verdict_of]. split; [ reflexivity | intros _ ].
    apply assess_urgency_in_tiers. }
  assert (Hf : forall e, In (urgency (fallback_verdict e)) urgency_tiers
                         <-> error (fallback_verdict e) = None).
  { intros e. cbn. split; [ | discriminate ].
    intros H. repeat (destruct H as [H | H]; [ discriminate H | ]).
    destruct H. }
  destruct (5 <=? level_of db w message session_id); [ | exact Hn ].
  destruct (log_crisis_event db _); [ exact Hn | apply Hf ].
Qed.

(** ** Crisis type *)

Lemma determine_crisis_type_in_types k p :
  In (_determine_crisis_type k p) crisis_types.
Proof.
  unfold _determine_crisis_type, crisis_types.
  repeat match goal with |- context [if ?b then _ else _] =>
    destruct b end; cbn; auto 12.
Qed.

(** [_determine_crisis_type] always answers with one of the eight crisis
    types, and it answers "emotional_distress" exactly when none of the
    seven categories is among the matches and neither the finality nor the
    goodbye pattern is among the high-risk patterns. *)
Theorem determine_crisis_type_closed :
  forall (k : KeywordAnalysis) (p : PatternAnalysis),
    In (_determine_crisis_type k p) crisis_types
    /\ (_determine_crisis_type k p = "emotional_distress"
        <-> forallb (fun category => negb (str_in category (map fst (matches k))))
              (map fst crisis_keywords)
            && negb (str_in "finality_statements" (high_risk_patterns p))
            && negb (str_in "goodbye_messages" (high_risk_patterns p)) = true).
Proof.
  intros k p. split; [ apply determine_crisis_type_in_types | ].
  unfold _determine_crisis_type. cbn [map fst crisis_keywords forallb].
  set (keys := map fst (matches k)).
  destruct (str_in "suicide" keys), (str_in "self_harm" keys),
    (str_in "hopelessness" keys), (str_in "isolation" keys),
    (str_in "substance_abuse" keys), (str_in "violence" keys),
    (str_in "psychosis" keys),
    (str_in "finality_statements" (high_risk_patterns p)),
    (str_in "goodbye_messages" (high_risk_patterns p));
    cbn; split; intros H; try discriminate H; reflexivity.
Qed.

(** ** What an analysis does to the stored state *)

Lemma update_tracking_lookup_ne now session_id lvl ty tracked sid :
  session_id <> sid ->
  _update_session_crisis_tracking now session_id lvl ty tracked !! sid
  = tracked !! sid.
Proof.
  intros Hne. unfold _update_session_crisis_tracking.
  destruct (tracked !! session_id) eqn:E;
    match goal with |- context [if ?b then _ else _] => destruct b end;
    rewrite ?lookup_insert_ne by exact Hne; reflexivity.
Qed.

Lemma update_tracking_dom now session_id lvl ty tracked :
  dom (_update_session_crisis_tracking now session_id lvl ty tracked)
  = {[session_id]} ∪ dom tracked.
Proof.
  unfold _update_session_crisis_tracking.
  destruct (tracked !! session_id) eqn:E;
    match goal with |- context [if ?b then _ else _] => destruct b end;
    rewrite !dom_insert_L, ?(assoc_L (∪)), ?union_idemp_L; reflexivity.
Qed.

(** Analysing a message of one session changes nothing in the tracked
    history of any other session. *)
Theorem analysis_leaves_other_sessions :
  forall (db : DatabaseManager) (now : Z) (message session_id : string)
         (w : World) (sid : string),
    session_id <> sid ->
    session_crisis_history
      (snd (analyze_safety (SafetyService db now) message session_id w)) !! sid
    = session_crisis_history w !! sid.
Proof.
  intros db now message session_id w sid Hne.
  rewrite analyze_safety_tracking. now apply update_tracking_lookup_ne.
Qed.

Lemma analysis_leaves_other_sessions_witness :
  session_crisis_history
    (snd (analyze_safety (SafetyService db_ok 0) msg_critical "s2"
            {| session_crisis_history := tracked_5_9_6; crisis_log := [] |}))
    !! "s1"
  = Some [event_at 5; event_at 9; event_at 6].
Proof.
  rewrite (analysis_leaves_other_sessions db_ok 0 msg_critical "s2"
             {| session_crisis_history := tracked_5_9_6; crisis_log := [] |}
             "s1"); [ reflexivity | discriminate ].
Defined.

Lemma run_calls_cons c calls w :
  run_calls (c :: calls) w = run_calls calls (run_call w c).
Proof. unfold run_calls. cbn [fold_left]. reflexivity. Qed.

Lemma run_calls_nil w : run_calls [] w = w.
Proof. reflexivity. Qed.

Lemma run_calls_dom :
  forall (calls : list Call) (w : World),
    dom (session_crisis_history (run_calls calls w))
    = list_to_set (map call_session calls) ∪ dom (session_crisis_history w).
Proof.
  induction calls as [|c calls IH]; intros w.
  - rewrite run_calls_nil. cbn [map list_to_set].
    now rewrite (left_id_L ∅ (∪)).
  - rewrite run_calls_cons, IH.
    unfold run_call. rewrite analyze_safety_tracking, update_tracking_dom.
    cbn [map list_to_set].
    rewrite (assoc_L (∪)).
    now rewrite (comm_L (∪) (list_to_set (map call_session calls)) {[call_session c]}).
Qed.

Lemma verdict_of_log_entry db now w message session_id :
  5 <= level_of db w message session_id ->
  well_formed_log_entry
    (crisis_data_of now session_id message (verdict_of db w message session_id)).
Proof.
  intros H5. unfold well_formed_log_entry, crisis_data_of. cbn.
  pose proof (calculate_crisis_level_range
                (_analyze_crisis_keywords message)
                (_analyze_crisis_patterns message)
                (context_of db w message session_id)) as Hr.
  fold (level_of db w message session_id) in Hr.
  repeat split; try lia. apply determine_crisis_type_in_types.
Qed.

Lemma run_call_log w c :
  exists added,
    crisis_log (run_call w c) = crisis_log w ++ added
    /\ Forall well_formed_log_entry added
    /\ (length added <= 1)%nat.
Proof.
  unfold run_call. rewrite analyze_safety_SafetyService. cbv zeta.
  destruct (5 <=? level_of _ w _ _) eqn:E5.
  - apply Z.leb_le in E5.
    destruct (log_crisis_event _ _); cbn [snd crisis_log].
    + eexists. split; [ reflexivity | ]. split; [ | cbn; lia ].
      constructor; [ | constructor ]. now apply verdict_of_log_entry.
    + exists []. rewrite app_nil_r. repeat split; [ constructor | cbn; lia ].
  - exists []. cbn. rewrite app_nil_r. repeat split; [ constructor | lia ].
Qed.

(** The crisis log is append-only.  After any sequence of analyses the old
    log is a prefix of the new one, at most one entry was added per call,
    and every added entry has a level in [5, 10], the flags [escalated] and
    [follow_up_needed] that belong to that level, a crisis type of the
    fixed vocabulary and an empty intervention response. *)
Theorem crisis_log_append_only :
  forall (calls : list Call) (w : World),
    exists added,
      crisis_log (run_calls calls w) = crisis_log w ++ added
      /\ Forall well_formed_log_entry added
      /\ (length added <= length calls)%nat.
Proof.
  induction calls as [|c calls IH]; intros w.
  - rewrite run_calls_nil. exists []. rewrite app_nil_r.
    repeat split; [ constructor | cbn; lia ].
  - rewrite run_calls_cons.
    destruct (run_call_log w c) as (a1 & H1 & F1 & L1).
    destruct (IH (run_call w c)) as (a2 & H2 & F2 & L2).
    exists (a1 ++ a2). rewrite H2, H1, app_assoc. split; [ reflexivity | ].
    split; [ apply Forall_app; split; assumption | ].
    rewrite length_app. cbn [length]. lia.
Qed.

Lemma last_n_Forall {A} (P : A -> Prop) (n : nat) (xs : list A) :
  Forall P xs -> Forall P (last_n n xs).
Proof. unfold last_n. apply Forall_drop. Qed.

Lemma run_call_well_formed w c :
  tracked_well_formed w -> tracked_well_formed (run_call w c).
Proof.
  intros Hw sid events Hsid.
  unfold run_call in Hsid. rewrite analyze_safety_tracking in Hsid.
  destruct (decide (call_session c = sid)) as [<- | Hne].
  - pose proof (update_tracking_history (call_now c) (call_session c)
                  (level_of (call_db c) w (call_message c) (call_session c))
                  (type_of (call_message c)) (session_crisis_history w)
                  (call_session c)) as Hh.
    unfold history_of at 1 in Hh. rewrite Hsid in Hh.
    cbn [from_option id] in Hh.
    destruct (decide (call_session c = call_session c)); [ | congruence ].
    rewrite Hh. apply last_n_Forall, Forall_app. split.
    + unfold history_of.
      destruct (session_crisis_history w !! call_session c) as [old|] eqn:E;
        [ exact (Hw _ _ E) | constructor ].
    + constructor; [ | constructor ]. split; cbn.
      * apply calculate_crisis_level_range.
      * apply determine_crisis_type_in_types.
  - rewrite update_tracking_lookup_ne in Hsid by exact Hne.
    exact (Hw _ _ Hsid).
Qed.

(** Every tracked entry the service writes has a level in [0, 10] and a
    crisis type of the fixed vocabulary: a state with that property keeps
    it through any sequence of analyses. *)
Theorem tracked_events_well_formed :
  forall (calls : list Call) (w : World),
    tracked_well_formed w -> tracked_well_formed (run_calls calls w).
Proof.
  induction calls as [|c calls IH]; intros w Hw.
  - exact Hw.
  - rewrite run_calls_cons. apply IH, run_call_well_formed, Hw.
Qed.

Lemma tracked_events_well_formed_witness :
  tracked_well_formed w0
  /\ tracked_well_formed
       (run_calls [{| call_db := db_ok; call_now := 0;
                      call_message := msg_critical; call_session := "s1" |}]
          w0).
Proof.
  assert (H0 : tracked_well_formed w0).
  { intros sid events H. cbn in H. rewrite lookup_empty in H. discriminate H. }
  split; [ exact H0 | ].
  exact (tracked_events_well_formed _ w0 H0).
Defined.

(** ** Session context *)

Lemma count_in_keywords_ge (user_msg : string) (lists : list (list string)) :
  forall count,
    count <= fold_left (fun count keywords => count + count_in keywords user_msg)
               lists count.
Proof.
  induction lists as [|keywords lists IH]; intros count; cbn [fold_left].
  - lia.
  - pose proof (count_in_nonneg keywords user_msg).
    etransitivity; [ | apply IH ]. lia.
Qed.

Lemma count_crisis_indicators_nonneg recent_messages :
  0 <= count_crisis_indicators recent_messages.
Proof.
  unfold count_crisis_indicators. generalize 0.
  induction recent_messages as [|msg msgs IH]; intros count; cbn [fold_left].
  - lia.
  - etransitivity; [ | apply IH ].
    apply count_in_keywords_ge.
Qed.

(** When the database has no stored conversation for the session, or the
    query raises, the context is the all-clear default; in particular
    [previous_interventions] is 0 however many events the service has
    tracked for the session. *)
Theorem context_default_without_history :
  forall (db : DatabaseManager) (tracked : gmap string (list Event.t))
         (session_id current_message : string),
    (get_session_history db session_id = Ok []
     \/ exists e, get_session_history db session_id = Raise e) ->
    _analyze_session_context db tracked session_id current_message
    = default_context.
Proof.
  intros db tracked session_id current_message [H | [e H]];
    unfold _analyze_session_context; now rewrite H.
Qed.

Lemma context_default_without_history_witness :
  len (history_of tracked_full "s1") = 10
  /\ previous_interventions
       (_analyze_session_context db_ok tracked_full "s1" msg_critical) = 0.
Proof.
  split; [ reflexivity | ].
  rewrite (context_default_without_history db_ok tracked_full "s1" msg_critical);
    [ reflexivity | left; reflexivity ].
Defined.

(** The context is internally consistent for every database answer and
    every tracked state: [escalation_detected] is the test
    [repeated_crisis_themes > 2], the two counts are not negative,
    [previous_interventions] is 0 or the number of tracked events of the
    session, and [session_duration] is never computed: it is always 0. *)
Theorem context_consistent :
  forall (db : DatabaseManager) (tracked : gmap string (list Event.t))
         (session_id current_message : string),
    let c := _analyze_session_context db tracked session_id current_message in
    escalation_detected c = (2 <? repeated_crisis_themes c)
    /\ 0 <= repeated_crisis_themes c
    /\ (previous_interventions c = 0
        \/ previous_interventions c = len (history_of tracked session_id))
    /\ session_duration c = 0.
Proof.
  intros db tracked session_id current_message. unfold _analyze_session_context.
  destruct (get_session_history db session_id) as [[|msg history]|e]; cbn;
    repeat split; try lia; auto.
  apply count_crisis_indicators_nonneg.
Qed.

Lemma last_n_app_ge {A} (n : nat) (older xs : list A) :
  (n <= length xs)%nat -> last_n n (older ++ xs) = last_n n xs.
Proof.
  intros H. unfold last_n. rewrite length_app.
  replace (length older + length xs - n)%nat
    with (length older + (length xs - n))%nat by lia.
  now rewrite drop_app_add.
Qed.

(** Only the last five stored messages matter: the context computed from
    a stored conversation of at least five messages does not change when
    older messages are put in front of it. *)
Theorem context_reads_last_five :
  forall (db1 db2 : DatabaseManager) (tracked : gmap string (list Event.t))
         (session_id current_message : string)
         (older history : list HistoryMsg),
    (5 <= length history)%nat ->
    get_session_history db1 session_id = Ok (older ++ history) ->
    get_session_history db2 session_id = Ok history ->
    _analyze_session_context db1 tracked session_id current_message
    = _analyze_session_context db2 tracked session_id current_message.
Proof.
  intros db1 db2 tracked session_id current_message older history Hlen H1 H2.
  assert (Hform : forall db h,
             get_session_history db session_id = Ok h -> h <> [] ->
             _analyze_session_context db tracked session_id current_message
             = {| escalation_detected :=
                    2 <? count_crisis_indicators
                           (if 3 <=? len h then last_n 3 h else h);
                  repeated_crisis_themes :=
                    count_crisis_indicators
                      (if 3 <=? len h then last_n 3 h else h);
                  emotional_deterioration :=
                    3 <=? len (List.filter
                                 (fun emotion => str_in emotion negative_emotions)
                                 (last_n 5 (map emotional_state h)));
                  previous_interventions := len (history_of tracked session_id);
                  session_duration := 0 |}).
  { intros db h Hdb Hne. unfold _analyze_session_context. rewrite Hdb.
    destruct h; [ congruence | reflexivity ]. }
  rewrite (Hform db1 (older ++ history) H1), (Hform db2 history H2).
  - replace (3 <=? len (older ++ history)) with true
      by (symmetry; apply Z.leb_le; unfold len; rewrite length_app; lia).
    replace (3 <=? len history) with true
      by (symmetry; apply Z.leb_le; unfold len; lia).
    rewrite (last_n_app_ge 3) by lia.
    rewrite map_app, (last_n_app_ge 5) by (rewrite length_map; lia).
    reflexivity.
  - intros ->. cbn in Hlen. lia.
  - intros H. apply app_eq_nil in H as [_ ->]. cbn in Hlen. lia.
Qed.

Lemma context_reads_last_five_witness :
  let recent := repeat {| user := "أموت"; emotional_state := "sad" |} 5 in
  let older := [{| user := "hello"; emotional_state := "happy" |}] in
  _analyze_session_context
    {| get_session_history := fun _ => Ok (older ++ recent);
       log_crisis_event := fun _ => Ok tt |} ∅ "s1" "x"
  = _analyze_session_context
      {| get_session_history := fun _ => Ok recent;
         log_crisis_event := fun _ => Ok tt |} ∅ "s1" "x".
Proof.
  intros recent older.
  apply (context_reads_last_five _ _ ∅ "s1" "x" older recent);
    [ cbn; lia | reflexivity | reflexivity ].
Defined.

(** ** Pattern analysis *)

(** Three of the seven patterns have no phrase list: their counts are
    always 0, so "burden_statements" is never among the high-risk
    patterns, which can only name the finality and the goodbye pattern;
    and the pattern severity stays in [0, 10]. *)
Theorem patterns_without_phrases :
  forall message : string,
    let p := _analyze_crisis_patterns message in
    past_tense_future (patterns p) = 0
    /\ isolation_expressions (patterns p) = 0
    /\ burden_statements (patterns p) = 0
    /\ high_risk_patterns p
       = (if 0 <? finality_statements (patterns p)
          then ["finality_statements"] else [])
         ++ (if 0 <? goodbye_messages (patterns p)
             then ["goodbye_messages"] else [])
    /\ 0 <= severity p <= 10.
Proof.
  intros message p. repeat split; try reflexivity.
  - unfold p, _analyze_crisis_patterns.
    cbn [high_risk_patterns patterns pattern_items finality_statements
         goodbye_messages past_tense_future extreme_language
         isolation_expressions worthlessness burden_statements].
    generalize (count_in finality_words (lower message)).
    generalize (count_in goodbye_words (lower message)).
    generalize (count_in extreme_words (lower message)).
    generalize (count_in worthless_words (lower message)).
    intros cw ce cg cf. cbn.
    rewrite !andb_false_r.
    destruct (0 <? cf), (0 <? cg); reflexivity.
  - apply pattern_analysis_severity_nonneg.
  - apply pattern_analysis_severity_range.
Qed.

(** ** Keyword analysis *)

Lemma scan_keywords_severity_eq category text keywords :
  forall found sev,
    (snd (scan_keywords category text keywords (found, sev))
     == sev + inject_Z (count_in keywords text) * category_weight category)%Q.
Proof.
  unfold scan_keywords, count_in, len.
  induction keywords as [|kw keywords IH]; intros found sev;
    cbn [fold_left List.filter].
  - cbn. ring.
  - destruct (contains kw text); rewrite IH; [ | reflexivity ].
    cbn [length]. rewrite Nat2Z.inj_succ. unfold Z.succ.
    rewrite inject_Z_plus. ring.
Qed.

Lemma existsb_filter_nil {A} (f : A -> bool) (xs : list A) :
  existsb f xs = false <-> List.filter f xs = [].
Proof.
  induction xs as [|x xs IH]; cbn; [ tauto | ].
  destruct (f x); cbn; [ split; discriminate | exact IH ].
Qed.

(** One round of the category loop, by whether a keyword was found. *)
Lemma scan_category_round text km total category keywords :
  scan_category text (km, total) (category, keywords)
  = if category_found text (category, keywords)
    then (km ++ [(category,
                  {| cm_matches :=
                       List.filter (fun kw => contains kw text) keywords;
                     cm_count := count_in keywords text;
                     cm_severity :=
                       snd (scan_keywords category text keywords ([], 0%Q)) |})],
          (total + snd (scan_keywords category text keywords ([], 0%Q)))%Q)
    else (km, total).
Proof.
  unfold scan_category, category_found, count_in. cbn [snd].
  pose proof (scan_keywords_found category text keywords [] 0%Q) as Hf.
  destruct (scan_keywords category text keywords ([], 0%Q)) as [found sev].
  cbn [fst snd app] in Hf |- *. subst found.
  destruct (existsb (fun kw => contains kw text) keywords) eqn:E.
  - destruct (List.filter _ keywords) eqn:Ef; [ | reflexivity ].
    apply existsb_filter_nil in Ef. congruence.
  - apply existsb_filter_nil in E. now rewrite E.
Qed.

Lemma scan_categories_keys text table :
  forall km total,
    map fst (fst (scan_categories text table (km, total)))
    = map fst km ++ map fst (List.filter (category_found text) table).
Proof.
  unfold scan_categories.
  induction table as [|[category keywords] table IH]; intros km total;
    cbn [fold_left List.filter].
  - cbn. now rewrite app_nil_r.
  - rewrite scan_category_round.
    destruct (category_found text (category, keywords)); rewrite IH;
      [ | reflexivity ].
    rewrite map_app. cbn [map fst]. now rewrite <- app_assoc.
Qed.

Lemma count_in_found_pos text category keywords :
  category_found text (category, keywords) = true -> 1 <= count_in keywords text.
Proof.
  unfold category_found, count_in, len. cbn [snd]. intros H.
  destruct (List.filter _ keywords) eqn:E.
  - apply existsb_filter_nil in E. congruence.
  - cbn [length]. lia.
Qed.

Lemma scan_categories_entries text universe table :
  incl table universe ->
  forall km total,
    Forall (entry_ok text universe) km ->
    Forall (entry_ok text universe)
      (fst (scan_categories text table (km, total))).
Proof.
  unfold scan_categories.
  induction table as [|[category keywords] table IH]; intros Hincl km total Hkm;
    cbn [fold_left].
  - exact Hkm.
  - assert (Hrest : incl table universe)
      by (intros x Hx; apply Hincl; now right).
    rewrite scan_category_round.
    destruct (category_found text (category, keywords)) eqn:E;
      apply IH; try assumption.
    apply Forall_app. split; [ exact Hkm | ].
    constructor; [ | constructor ].
    exists keywords. cbn [fst snd cm_matches cm_count cm_severity].
    split; [ apply Hincl; now left | ].
    repeat split.
    + now apply (count_in_found_pos text category).
    + rewrite scan_keywords_severity_eq. ring.
Qed.

(** The matches name exactly the categories with a keyword in the
    message, in the order of the table; each entry lists the keywords
    found, counts them (at least one), and has the severity
    [count * weight] of its category. *)
Theorem keyword_matches_structure :
  forall message : string,
    let text := lower message in
    let k := _analyze_crisis_keywords message in
    map fst (matches k)
    = map fst (List.filter (category_found text) crisis_keywords)
    /\ Forall (entry_ok text crisis_keywords) (matches k).
Proof.
  intros message text k. unfold k, _analyze_crisis_keywords. fold text.
  pose proof (scan_categories_keys text crisis_keywords [] 0%Q) as Hkeys.
  pose proof (scan_categories_entries text crisis_keywords crisis_keywords
                (incl_refl _) [] 0%Q ltac:(constructor)) as Hent.
  destruct (scan_categories text crisis_keywords ([], 0%Q)) as [km total].
  cbn [fst matches] in *. split; [ exact Hkeys | exact Hent ].
Qed.

Lemma high_risk_filter_keys text table km :
  Forall (entry_ok text table) km ->
  map fst (List.filter is_high_risk km)
  = List.filter (fun c => str_in c ["suicide"; "self_harm"; "violence"])
      (map fst km).
Proof.
  induction 1 as [|item km (kws & _ & _ & _ & Hpos & _) _ IH]; [ reflexivity | ].
  cbn [List.filter map]. unfold is_high_risk at 1.
  replace (0 <? cm_count (snd item)) with true
    by (symmetry; apply Z.ltb_lt; lia).
  rewrite andb_true_r.
  destruct (str_in (fst item) _); cbn [map]; now rewrite IH.
Qed.

Lemma filter_keys_length {A} (p : string -> bool) (q : string * A -> bool)
    (table : list (string * A)) :
  (length (List.filter p (map fst (List.filter q table)))
   <= length (List.filter p (map fst table)))%nat.
Proof.
  induction table as [|x table IH]; [ reflexivity | ].
  cbn [List.filter map]. destruct (q x); cbn [List.filter map];
    destruct (p (fst x)); cbn [length]; lia.
Qed.

(** The high-risk categories are the matched categories among suicide,
    self-harm and violence, so there are at most three of them; the total
    severity lies in [0, 10]. *)
Theorem high_risk_categories_structure :
  forall message : string,
    let k := _analyze_crisis_keywords message in
    high_risk_categories k
    = List.filter (fun c => str_in c ["suicide"; "self_harm"; "violence"])
        (map fst (matches k))
    /\ len (high_risk_categories k) <= 3
    /\ (0 <= total_severity k <= 10)%Q.
Proof.
  intros message k.
  assert (Hhr : high_risk_categories k
                = List.filter
                    (fun c => str_in c ["suicide"; "self_harm"; "violence"])
                    (map fst (matches k))).
  { unfold k, _analyze_crisis_keywords.
    pose proof (scan_categories_entries (lower message) crisis_keywords
                  crisis_keywords (incl_refl _) [] 0%Q ltac:(constructor)) as Hent.
    destruct (scan_categories (lower message) crisis_keywords ([], 0%Q))
      as [km total].
    cbn [fst matches high_risk_categories] in *.
    exact (high_risk_filter_keys _ _ _ Hent). }
  split; [ exact Hhr | ]. split.
  - rewrite Hhr. unfold k, _analyze_crisis_keywords.
    pose proof (scan_categories_keys (lower message) crisis_keywords [] 0%Q)
      as Hkeys.
    destruct (scan_categories (lower message) crisis_keywords ([], 0%Q))
      as [km total].
    cbn [fst matches map app] in *. rewrite Hkeys. unfold len.
    pose proof (filter_keys_length
                  (fun c => str_in c ["suicide"; "self_harm"; "violence"])
                  (category_found (lower message)) crisis_keywords) as Hlen.
    change (length (List.filter _ (map fst crisis_keywords))) with 3%nat in Hlen.
    lia.
  - destruct (keyword_analysis_grid message) as [(halves & Hh & Hq) _].
    fold k in Hq. rewrite Hq. unfold Qle. cbn. lia.
Qed.

(** ** Messages without any match *)

Lemma count_in_zero words text :
  (forall t, In t words -> contains t text = false) -> count_in words text = 0.
Proof.
  unfold count_in, len. induction words as [|t words IH]; intros H.
  - reflexivity.
  - cbn [List.filter]. rewrite (H t) by now left.
    apply IH. intros u Hu. apply H. now right.
Qed.

Lemma no_match_term message t :
  no_match message = true -> In t all_terms ->
  contains t (lower message) = false.
Proof.
  unfold no_match. intros H Hin.
  apply (forallb_In _ _ t) in H; [ | exact Hin ].
  now apply negb_true_iff in H.
Qed.

Lemma no_match_category message entry :
  no_match message = true -> In entry crisis_keywords ->
  category_found (lower message) entry = false.
Proof.
  intros H Hin. unfold category_found.
  apply not_true_iff_false. intros Hex.
  apply existsb_exists in Hex as (kw & Hkw & Hc).
  rewrite (no_match_term message kw H) in Hc; [ discriminate | ].
  unfold all_terms. apply in_or_app. left.
  apply in_concat. exists (snd entry). split; [ now apply in_map | exact Hkw ].
Qed.

Lemma scan_categories_none text table :
  (forall entry, In entry table -> category_found text entry = false) ->
  forall acc, scan_categories text table acc = acc.
Proof.
  unfold scan_categories.
  induction table as [|[category keywords] table IH]; intros H [km total];
    cbn [fold_left]; [ reflexivity | ].
  rewrite scan_category_round, (H (category, keywords)) by now left.
  apply IH. intros entry Hin. apply H. now right.
Qed.

Lemma no_match_keyword_analysis message :
  no_match message = true ->
  _analyze_crisis_keywords message
  = {| matches := []; total_severity := 0; high_risk_categories := [] |}.
Proof.
  intros H. unfold _analyze_crisis_keywords.
  rewrite scan_categories_none; [ reflexivity | ].
  intros entry Hin. now apply no_match_category.
Qed.

Lemma no_match_pattern_analysis message :
  no_match message = true ->
  _analyze_crisis_patterns message
  = {| patterns :=
         {| finality_statements := 0; goodbye_messages := 0;
            past_tense_future := 0; extreme_language := 0;
            isolation_expressions := 0; worthlessness := 0;
            burden_statements := 0 |};
       severity := 0;
       high_risk_patterns := [] |}.
Proof.
  intros H. destruct pattern_words_in_all_terms as (Hf & Hg & He & Hw).
  unfold _analyze_crisis_patterns.
  rewrite !count_in_zero; [ reflexivity | | | | ];
    intros t Ht; apply (no_match_term message t H); auto.
Qed.

(** A message in which no trigger term and no pattern phrase occurs is
    classified "emotional_distress"; its level comes from the session
    context alone (2 for escalation, 1 for deterioration, 1 for more than
    one previous intervention), so it is at most 4: the verdict never
    requires intervention, its urgency is "none" or "low", no crisis event
    is written, and the fallback cannot arise. *)
Theorem unmatched_message_verdict :
  forall (db : DatabaseManager) (now : Z) (message session_id : string)
         (w : World),
    no_match message = true ->
    let r := analyze_safety (SafetyService db now) message session_id w in
    let c := context_of db w message session_id in
    crisis_type (fst r) = "emotional_distress"
    /\ crisis_level (fst r)
       = (if escalation_detected c then 2 else 0)
         + (if emotional_deterioration c then 1 else 0)
         + (if 1 <? previous_interventions c then 1 else 0)
    /\ urgency (fst r)
       = (if 3 <=? crisis_level (fst r) then "low" else "none")
    /\ requires_intervention (fst r) = false
    /\ error (fst r) = None
    /\ crisis_log (snd r) = crisis_log w.
Proof.
  intros db now message session_id w H r c.
  assert (Hlvl : level_of db w message session_id
                 = (if escalation_detected c then 2 else 0)
                   + (if emotional_deterioration c then 1 else 0)
                   + (if 1 <? previous_interventions c then 1 else 0)).
  { unfold level_of. fold c.
    rewrite (no_match_keyword_analysis message H),
      (no_match_pattern_analysis message H).
    unfold _calculate_crisis_level, total_score, context_score.
    cbn [total_severity severity high_risk_categories].
    destruct (escalation_detected c), (emotional_deterioration c),
      (1 <? previous_interventions c); reflexivity. }
  assert (Hty : type_of message = "emotional_distress").
  { unfold type_of.
    now rewrite (no_match_keyword_analysis message H),
      (no_match_pattern_analysis message H). }
  assert (Hr : r = (verdict_of db w message session_id,
                    tracked_world db now w message session_id)).
  { unfold r. rewrite analyze_safety_SafetyService. cbv zeta.
    replace (5 <=? level_of db w message session_id) with false;
      [ reflexivity | ].
    symmetry. apply Z.leb_gt. rewrite Hlvl.
    destruct (escalation_detected c), (emotional_deterioration c),
      (1 <? previous_interventions c); lia. }
  rewrite Hr.
  cbn [fst snd crisis_type crisis_level urgency requires_intervention error
       verdict_of tracked_world crisis_log].
  split; [ exact Hty | ]. split; [ exact Hlvl | ].
  unfold urgency_of. fold c. rewrite Hty, threshold_high, Hlvl.
  unfold _assess_urgency.
  destruct (escalation_detected c), (emotional_deterioration c),
    (1 <? previous_interventions c); repeat split; reflexivity.
Qed.

Lemma unmatched_message_verdict_witness :
  no_match "good morning" = true
  /\ crisis_level (fst (analyze_safety (SafetyService db_ok 0)
                          "good morning" "s1" w0)) = 0
  /\ urgency (fst (analyze_safety (SafetyService db_ok 0)
                     "good morning" "s1" w0)) = "none".
Proof.
  assert (H : no_match "good morning" = true) by (vm_compute; reflexivity).
  split; [ exact H | ].
  destruct (unmatched_message_verdict db_ok 0 "good morning" "s1" w0 H)
    as (_ & Hl & Hu & _).
  split; [ exact Hl | exact Hu ].
Defined.

Lemma high_risk_patterns_form message :
  high_risk_patterns (_analyze_crisis_patterns message)
  = (if 0 <? count_in finality_words (lower message)
     then ["finality_statements"] else [])
    ++ (if 0 <? count_in goodbye_words (lower message)
        then ["goodbye_messages"] else []).
Proof.
  unfold _analyze_crisis_patterns.
  cbn [high_risk_patterns patterns pattern_items finality_statements
       goodbye_messages past_tense_future extreme_language
       isolation_expressions worthlessness burden_statements].
  generalize (count_in finality_words (lower message)).
  generalize (count_in goodbye_words (lower message)).
  generalize (count_in extreme_words (lower message)).
  generalize (count_in worthless_words (lower message)).
  intros cw ce cg cf. cbn. rewrite !andb_false_r.
  destruct (0 <? cf), (0 <? cg); reflexivity.
Qed.

Lemma keyword_matches_keys message :
  map fst (matches (_analyze_crisis_keywords message))
  = map fst (List.filter (category_found (lower message)) crisis_keywords).
Proof.
  unfold _analyze_crisis_keywords.
  pose proof (scan_categories_keys (lower message) crisis_keywords [] 0%Q)
    as Hkeys.
  destruct (scan_categories (lower message) crisis_keywords ([], 0%Q))
    as [km total].
  exact Hkeys.
Qed.

Lemma str_in_filter_keys {A} (c : string) (q : string * A -> bool)
    (table : list (string * A)) :
  str_in c (map fst (List.filter q table))
  = existsb (fun entry => String.eqb c (fst entry) && q entry) table.
Proof.
  unfold str_in. induction table as [|x table IH]; [ reflexivity | ].
  cbn [List.filter existsb]. destruct (q x); cbn [map existsb].
  - now rewrite IH, andb_true_r.
  - now rewrite IH, andb_false_r.
Qed.

(** The crisis type of a message is "emotional_distress" exactly when no
    keyword of any category and no finality or goodbye phrase occurs in
    its lower-cased text. *)
Theorem emotional_distress_iff_unmatched :
  forall message : string,
    let text := lower message in
    type_of message = "emotional_distress"
    <-> forallb (fun entry => negb (category_found text entry)) crisis_keywords
        && (count_in finality_words text =? 0)
        && (count_in goodbye_words text =? 0) = true.
Proof.
  intros message text. unfold type_of, _determine_crisis_type.
  rewrite keyword_matches_keys, !str_in_filter_keys.
  rewrite high_risk_patterns_form. fold text.
  pose proof (count_in_nonneg finality_words text) as Hf.
  pose proof (count_in_nonneg goodbye_words text) as Hg.
  revert Hf Hg.
  generalize (count_in finality_words text).
  generalize (count_in goodbye_words text). intros cg cf Hf Hg.
  cbn [crisis_keywords existsb forallb fst String.eqb Ascii.eqb Bool.eqb
       andb orb].
  rewrite !orb_false_r.
  repeat match goal with
         | |- context [category_found text ?e] =>
             generalize (category_found text e); intro
         end.
  rewrite !andb_true_iff, !negb_true_iff.
  repeat match goal with
         | b : bool |- context [if ?c then _ else _] =>
             is_var c; destruct c;
             [ split; [ discriminate | intros E; decompose [and] E; discriminate ]
             | ]
         end.
  destruct (Z.ltb_spec 0 cf), (Z.eqb_spec cf 0); try lia;
    destruct (Z.ltb_spec 0 cg), (Z.eqb_spec cg 0); try lia;
    cbn; split; intros E; try discriminate E; try tauto;
    decompose [and] E; discriminate.
Qed.

(** ** The escalation decision *)

Lemma check_escalation_unfold tracked session_id lvl :
  let h := history_of tracked session_id in
  let sustained :=
    3 <=? len (List.filter (fun event => 7 <=? Event.crisis_level event)
                 (last_n 5 h)) in
  Assessment.criteria_met (check_escalation_needed tracked session_id lvl)
  = {| sustained_high_risk := sustained;
       increasing_severity := increasing_severity_of h;
       failed_interventions := 2 <? len h;
       immediate_danger := 9 <=? lvl |}
  /\ Assessment.escalation_needed (check_escalation_needed tracked session_id lvl)
     = (9 <=? lvl)
       || (sustained && increasing_severity_of h || (2 <? len h) && (7 <=? lvl)).
Proof.
  cbv zeta. unfold check_escalation_needed.
  cbn [Assessment.criteria_met Assessment.escalation_needed existsb id
       sustained_high_risk increasing_severity failed_interventions
       immediate_danger].
  rewrite threshold_high, orb_false_r. split; reflexivity.
Qed.

(** A session with fewer than three tracked events (an unknown session
    included) meets none of the three history criteria: escalation is
    needed exactly when the current level is at least 9. *)
Theorem escalation_with_short_history :
  forall (tracked : gmap string (list Event.t)) (session_id : string)
         (current_crisis_level : Z),
    (length (history_of tracked session_id) < 3)%nat ->
    let a := check_escalation_needed tracked session_id current_crisis_level in
    sustained_high_risk (Assessment.criteria_met a) = false
    /\ increasing_severity (Assessment.criteria_met a) = false
    /\ failed_interventions (Assessment.criteria_met a) = false
    /\ Assessment.escalation_needed a = (9 <=? current_crisis_level).
Proof.
  intros tracked session_id lvl Hlen a.
  destruct (check_escalation_unfold tracked session_id lvl) as [Hc He].
  cbv zeta in Hc, He. unfold a. rewrite Hc, He.
  cbn [sustained_high_risk increasing_severity failed_interventions].
  set (h := history_of tracked session_id) in *.
  assert (Hs : (3 <=? len (List.filter
                             (fun event => 7 <=? Event.crisis_level event)
                             (last_n 5 h))) = false).
  { apply Z.leb_gt. unfold len.
    pose proof (List.filter_length_le
                  (fun event => 7 <=? Event.crisis_level event) (last_n 5 h))
      as Hfl.
    unfold last_n in Hfl at 2. rewrite length_drop in Hfl. lia. }
  assert (Hi : increasing_severity_of h = false).
  { unfold increasing_severity_of.
    replace (3 <=? len h) with false; [ reflexivity | ].
    symmetry. apply Z.leb_gt. unfold len. lia. }
  assert (Hf : (2 <? len h) = false)
    by (apply Z.ltb_ge; unfold len; lia).
  rewrite Hs, Hi, Hf. cbn. rewrite orb_false_r. auto.
Qed.

Lemma escalation_with_short_history_witness :
  Assessment.escalation_needed (check_escalation_needed ∅ "unknown" 8) = false
  /\ Assessment.escalation_needed (check_escalation_needed ∅ "unknown" 9) = true.
Proof.
  assert (H : (length (history_of (∅ : gmap string (list Event.t)) "unknown")
               < 3)%nat)
    by (unfold history_of; rewrite lookup_empty; cbn; lia).
  split.
  - exact (proj2 (proj2 (proj2
             (escalation_with_short_history ∅ "unknown" 8 H)))).
  - exact (proj2 (proj2 (proj2
             (escalation_with_short_history ∅ "unknown" 9 H)))).
Defined.

(** For a fixed session state the escalation decision is monotone in the
    current level: if escalation is needed at one level it is needed at
    every higher level. *)
Theorem escalation_monotone :
  forall (tracked : gmap string (list Event.t)) (session_id : string)
         (l1 l2 : Z),
    l1 <= l2 ->
    Assessment.escalation_needed (check_escalation_needed tracked session_id l1)
      = true ->
    Assessment.escalation_needed (check_escalation_needed tracked session_id l2)
      = true.
Proof.
  intros tracked session_id l1 l2 Hle.
  destruct (check_escalation_unfold tracked session_id l1) as [_ ->].
  destruct (check_escalation_unfold tracked session_id l2) as [_ ->].
  generalize (3 <=? len (List.filter (fun event => 7 <=? Event.crisis_level event)
                           (last_n 5 (history_of tracked session_id)))).
  generalize (increasing_severity_of (history_of tracked session_id)).
  generalize (2 <? len (history_of tracked session_id)).
  intros failed increasing sustained.
  destruct (Z.leb_spec 9 l1), (Z.leb_spec 9 l2), (Z.leb_spec 7 l1),
    (Z.leb_spec 7 l2); try lia;
    destruct failed, increasing, sustained; cbn; auto.
Qed.

Lemma escalation_monotone_witness :
  Assessment.escalation_needed (check_escalation_needed tracked_5_9_6 "s1" 10)
  = true.
Proof.
  apply (escalation_monotone tracked_5_9_6 "s1" 7 10); [ lia | reflexivity ].
Defined.



(** ** Analyses followed by an escalation check *)

Lemma last_n_S_snoc {A} (n : nat) (xs : list A) (x : A) :
  last_n (S n) (xs ++ [x]) = last_n n xs ++ [x].
Proof.
  unfold last_n. rewrite length_app. cbn [length].
  replace (length xs + 1 - S n)%nat with (length xs - n)%nat by lia.
  apply drop_app_le. lia.
Qed.

(** The session's list after one call: the last nine old entries and the
    new one. *)
Lemma run_call_history w c :
  history_of (session_crisis_history (run_call w c)) (call_session c)
  = last_n 9 (history_of (session_crisis_history w) (call_session c))
    ++ [event_of (call_db c) (call_now c) w (call_message c) (call_session c)].
Proof.
  unfold run_call. rewrite analyze_safety_tracking, update_tracking_history.
  destruct (decide (call_session c = call_session c)); [ | congruence ].
  apply last_n_S_snoc.
Qed.

(** Three calls in a row on one session leave their three entries at the
    end of the session's list. *)
Lemma three_calls_history w c1 c2 c3 sid :
  call_session c1 = sid -> call_session c2 = sid -> call_session c3 = sid ->
  let w1 := run_call w c1 in
  let w2 := run_call w1 c2 in
  let w3 := run_call w2 c3 in
  exists older,
    history_of (session_crisis_history w3) sid
    = older
      ++ [event_of (call_db c1) (call_now c1) w (call_message c1) sid;
          event_of (call_db c2) (call_now c2) w1 (call_message c2) sid;
          event_of (call_db c3) (call_now c3) w2 (call_message c3) sid].
Proof.
  intros H1 H2 H3 w1 w2 w3.
  pose proof (run_call_history w c1) as E1.
  pose proof (run_call_history w1 c2) as E2.
  pose proof (run_call_history w2 c3) as E3.
  rewrite H1 in E1. rewrite H2 in E2. rewrite H3 in E3.
  fold w1 in E1. fold w2 in E2. fold w3 in E3.
  rewrite E3, E2, E1.
  rewrite (last_n_S_snoc 8), (last_n_S_snoc 8), (last_n_S_snoc 7).
  rewrite <- !app_assoc. eexists. reflexivity.
Qed.

(** Tracking is unconditional, so after three analyses of a session in a
    row, whatever the messages scored, [failed_interventions] is set; a
    check with a current level of at least 7 then asks for escalation. *)
Theorem three_analyses_set_failed_interventions :
  forall (w : World) (c1 c2 c3 : Call) (sid : string)
         (current_crisis_level : Z),
    call_session c1 = sid -> call_session c2 = sid -> call_session c3 = sid ->
    7 <= current_crisis_level ->
    let a := check_escalation_needed
               (session_crisis_history (run_calls [c1; c2; c3] w))
               sid current_crisis_level in
    failed_interventions (Assessment.criteria_met a) = true
    /\ Assessment.escalation_needed a = true.
Proof.
  intros w c1 c2 c3 sid lvl H1 H2 H3 Hlvl a.
  destruct (three_calls_history w c1 c2 c3 sid H1 H2 H3) as [older Hh].
  cbv zeta in Hh.
  unfold a. clear a. rewrite !run_calls_cons, run_calls_nil.
  destruct (check_escalation_unfold
              (session_crisis_history
                 (run_call (run_call (run_call w c1) c2) c3)) sid lvl)
    as [Hc He].
  cbv zeta in Hc, He. rewrite Hc, He, Hh.
  cbn [failed_interventions].
  assert (Hf : (2 <? len (older ++ [event_of (call_db c1) (call_now c1) w
                                     (call_message c1) sid;
                                   event_of (call_db c2) (call_now c2)
                                     (run_call w c1) (call_message c2) sid;
                                   event_of (call_db c3) (call_now c3)
                                     (run_call (run_call w c1) c2)
                                     (call_message c3) sid])) = true).
  { apply Z.ltb_lt. unfold len. rewrite length_app. cbn [length]. lia. }
  rewrite Hf. split; [ reflexivity | ].
  apply Z.leb_le in Hlvl. rewrite Hlvl.
  now rewrite andb_true_r, !orb_true_r.
Qed.

Lemma three_analyses_set_failed_interventions_witness :
  let c := {| call_db := db_ok; call_now := 0;
              call_message := "good morning"; call_session := "s1" |} in
  Assessment.escalation_needed
    (check_escalation_needed
       (session_crisis_history (run_calls [c; c; c] w0)) "s1" 7) = true.
Proof.
  intros c.
  apply (three_analyses_set_failed_interventions w0 c c c "s1" 7);
    [ reflexivity | reflexivity | reflexivity | lia ].
Defined.

(** Three analyses in a row on one session, each scoring at least 7, set
    [sustained_high_risk] in the escalation check that follows. *)
Theorem three_high_analyses_are_sustained_risk :
  forall (w : World) (c1 c2 c3 : Call) (sid : string)
         (current_crisis_level : Z),
    call_session c1 = sid -> call_session c2 = sid -> call_session c3 = sid ->
    let w1 := run_call w c1 in
    let w2 := run_call w1 c2 in
    7 <= level_of (call_db c1) w (call_message c1) sid ->
    7 <= level_of (call_db c2) w1 (call_message c2) sid ->
    7 <= level_of (call_db c3) w2 (call_message c3) sid ->
    sustained_high_risk
      (Assessment.criteria_met
         (check_escalation_needed
            (session_crisis_history (run_calls [c1; c2; c3] w))
            sid current_crisis_level)) = true.
Proof.
  intros w c1 c2 c3 sid lvl H1 H2 H3 w1 w2 L1 L2 L3.
  destruct (three_calls_history w c1 c2 c3 sid H1 H2 H3) as [older Hh].
  cbv zeta in Hh. fold w1 in Hh. fold w2 in Hh.
  rewrite !run_calls_cons, run_calls_nil. fold w1. fold w2.
  destruct (check_escalation_unfold
              (session_crisis_history (run_call w2 c3)) sid lvl) as [Hc _].
  cbv zeta in Hc. rewrite Hc, Hh. cbn [sustained_high_risk].
  set (e1 := event_of (call_db c1) (call_now c1) w (call_message c1) sid).
  set (e2 := event_of (call_db c2) (call_now c2) w1 (call_message c2) sid).
  set (e3 := event_of (call_db c3) (call_now c3) w2 (call_message c3) sid).
  change (older ++ [e1; e2; e3]) with (older ++ [e1] ++ [e2] ++ [e3]).
  rewrite !app_assoc.
  rewrite (last_n_S_snoc 4), (last_n_S_snoc 3), (last_n_S_snoc 2).
  rewrite !List.filter_app. cbn [List.filter].
  replace (7 <=? Event.crisis_level e1) with true
    by (symmetry; apply Z.leb_le; exact L1).
  replace (7 <=? Event.crisis_level e2) with true
    by (symmetry; apply Z.leb_le; exact L2).
  replace (7 <=? Event.crisis_level e3) with true
    by (symmetry; apply Z.leb_le; exact L3).
  apply Z.leb_le. unfold len. rewrite !length_app. cbn [length]. lia.
Qed.

Lemma three_high_analyses_are_sustained_risk_witness :
  let c := {| call_db := db_ok; call_now := 0;
              call_message := msg_critical; call_session := "s1" |} in
  sustained_high_risk
    (Assessment.criteria_met
       (check_escalation_needed
          (session_crisis_history (run_calls [c; c; c] w0)) "s1" 0)) = true.
Proof.
  intros c.
  apply (three_high_analyses_are_sustained_risk w0 c c c "s1" 0);
    [ reflexivity | reflexivity | reflexivity | | | ];
    vm_compute; discriminate.
Defined.

(** ** Health check and tracked sessions *)

(** The service never forgets a session: after any sequence of analyses
    the tracked sessions are those tracked before together with every
    session that was analysed, so the [active_session_tracking] count of
    [health_check] never goes down; on a fresh service it is the number of
    distinct sessions analysed. *)
Theorem tracked_sessions_only_grow :
  forall (calls : list Call) (w : World),
    dom (session_crisis_history (run_calls calls w))
    = list_to_set (map call_session calls) ∪ dom (session_crisis_history w)
    /\ active_session_tracking (health_check w)
       <= active_session_tracking (health_check (run_calls calls w))
    /\ active_session_tracking (health_check (run_calls calls w0))
       = Z.of_nat (size (list_to_set (map call_session calls) : gset string)).
Proof.
  intros calls w. pose proof (run_calls_dom calls w) as Hdom.
  split; [ exact Hdom | ]. split.
  - unfold health_check. cbn [active_session_tracking].
    rewrite <- !size_dom, Hdom.
    apply inj_le, subseteq_size, union_subseteq_r.
  - unfold health_check. cbn [active_session_tracking].
    rewrite <- size_dom, run_calls_dom.
    cbn [w0 session_crisis_history]. rewrite dom_empty_L.
    now rewrite (right_id_L ∅ (∪)).
Qed.

(** ** Crisis response *)

Lemma analyze_safety_flags (self : Methods) message session_id w :
  let v := fst (analyze_safety self message session_id w) in
  requires_intervention v = (7 <=? crisis_level v)
  /\ requires_escalation v = (9 <=? crisis_level v).
Proof.
  cbv zeta. unfold analyze_safety.
  destruct (analyze_safety_try self message session_id w) as [[a|e] w'] eqn:E.
  - destruct (analyze_safety_try_ok _ _ _ _ _ _ E) as (He & Hi & _).
    cbn. auto.
  - cbn. auto.
Qed.

Lemma get_crisis_response_ok prompts v r :
  get_crisis_response prompts v = Ok r ->
  Response.crisis_level r = crisis_level v
  /\ Response.urgency r = urgency v
  /\ Response.resources r = (if 7 <=? crisis_level v then hotlines else [])
  /\ length (Response.emergency_contacts r)
     = (if 7 <=? crisis_level v then 2%nat else 0%nat)
  /\ Response.immediate_actions r
     = _get_immediate_actions (crisis_level v) (crisis_type v)
  /\ Response.follow_up_required r = (5 <=? crisis_level v).
Proof.
  unfold get_crisis_response. rewrite threshold_high, threshold_medium.
  destruct (base_response_of prompts (crisis_type v)); [ | discriminate ].
  destruct (_get_cultural_crisis_support prompts (crisis_type v));
    [ | destruct (7 <=? crisis_level v); discriminate ].
  destruct (7 <=? crisis_level v); intros [= <-]; cbn; auto 10.
Qed.

(** The response to a verdict of [analyze_safety] carries the emergency
    hotlines and the two emergency contacts exactly when the verdict
    requires intervention (the fallback verdict included); it copies the
    verdict's level and urgency, always lists immediate actions, and asks
    for follow-up whenever intervention is required. *)
Theorem crisis_response_follows_verdict :
  forall (self : Methods) (message session_id : string) (w : World)
         (prompts : TherapeuticPrompts) (r : Response.t),
    let v := fst (analyze_safety self message session_id w) in
    get_crisis_response prompts v = Ok r ->
    (Response.resources r = hotlines /\ length (Response.emergency_contacts r) = 2%nat
     <-> requires_intervention v = true)
    /\ (Response.resources r = [] /\ Response.emergency_contacts r = []
        <-> requires_intervention v = false)
    /\ Response.crisis_level r = crisis_level v
    /\ Response.urgency r = urgency v
    /\ Response.immediate_actions r <> []
    /\ implb (requires_intervention v) (Response.follow_up_required r) = true.
Proof.
  intros self message session_id w prompts r v H.
  destruct (analyze_safety_flags self message session_id w) as [Hi _].
  fold v in Hi.
  destruct (get_crisis_response_ok prompts v r H)
    as (Hl & Hu & Hr & Hc & Ha & Hf).
  rewrite Hi, Hr, Hc, Ha, Hf.
  split; [ | split; [ | split; [ exact Hl | split; [ exact Hu | split ] ] ] ].
  - destruct (7 <=? crisis_level v).
    + split; auto.
    + split; [ intros [E _]; discriminate E | discriminate ].
  - destruct (7 <=? crisis_level v) eqn:E7.
    + split; [ intros [E _]; discriminate E | discriminate ].
    + split; [ reflexivity | intros _ ].
      split; [ reflexivity | ].
      destruct (Response.emergency_contacts r); [ reflexivity | discriminate Hc ].
  - unfold _get_immediate_actions.
    destruct (9 <=? crisis_level v), (7 <=? crisis_level v),
      (5 <=? crisis_level v); discriminate.
  - destruct (Z.leb_spec 7 (crisis_level v)), (Z.leb_spec 5 (crisis_level v));
      try reflexivity; lia.
Qed.

Lemma crisis_response_follows_verdict_witness :
  exists r,
    get_crisis_response prompts_full
      (fst (analyze_safety broken_matcher "hello" "s1" w0)) = Ok r
    /\ Response.resources r = hotlines
    /\ Response.crisis_level r = 8.
Proof.
  destruct (get_crisis_response prompts_full
              (fst (analyze_safety broken_matcher "hello" "s1" w0)))
    as [r|e] eqn:E; [ | vm_compute in E; discriminate E ].
  exists r. split; [ reflexivity | ].
  destruct (crisis_response_follows_verdict broken_matcher "hello" "s1" w0
              prompts_full r E) as (H1 & _ & Hl & _).
  split; [ apply H1; reflexivity | exact Hl ].
Defined.

Lemma getitem_ok {A} (d : gmap string A) key :
  (exists v, getitem d key = Ok v) <-> is_Some (d !! key).
Proof.
  unfold getitem. destruct (d !! key).
  - split; eauto.
  - split; [ intros [v H]; discriminate H | intros [v H]; discriminate H ].
Qed.

(** [get_crisis_response] has no handler of its own: it returns exactly
    when the prompt dicts hold the cultural passage and, for the three
    crisis types with a base response of their own, that response;
    otherwise the [KeyError] reaches the caller, whatever the crisis
    level. *)
Theorem crisis_response_needs_prompts :
  forall (prompts : TherapeuticPrompts) (v : SafetyVerdict),
    (exists r, get_crisis_response prompts v = Ok r)
    <-> prompts_cover prompts (crisis_type v).
Proof.
  intros prompts v. unfold get_crisis_response, prompts_cover.
  assert (Hcult : (exists s, _get_cultural_crisis_support prompts (crisis_type v)
                             = Ok s)
                  <-> exists section,
                        get_crisis_cultural_context prompts
                          !! "suicide_prevention" = Some section
                        /\ is_Some (section !! "islamic_perspective")).
  { unfold _get_cultural_crisis_support, getitem.
    destruct (get_crisis_cultural_context prompts !! "suicide_prevention")
      as [section|].
    - destruct (section !! "islamic_perspective") as [base|] eqn:Eb.
      + split; [ intros _; exists section; rewrite Eb; eauto | ].
        intros _. destruct (String.eqb _ _); eauto.
      + split; [ intros [s H]; discriminate H | ].
        intros (s' & [= <-] & [x Hx]). congruence.
    - split; [ intros [s H]; discriminate H | ].
      intros (s' & H & _). discriminate H. }
  assert (Hbase : (exists b, base_response_of prompts (crisis_type v) = Ok b)
                  <-> (crisis_type v = "suicide_risk" ->
                       is_Some (get_crisis_intervention_responses prompts
                                  !! "suicide_ideation"))
                      /\ (crisis_type v = "self_harm_risk" ->
                          is_Some (get_crisis_intervention_responses prompts
                                     !! "self_harm"))
                      /\ (crisis_type v = "substance_abuse" ->
                          is_Some (get_crisis_intervention_responses prompts
                                     !! "substance_abuse"))).
  { unfold base_response_of. cbv zeta.
    destruct (String.eqb_spec (crisis_type v) "suicide_risk") as [E1|N1].
    { rewrite getitem_ok, E1. split; [ | tauto ].
      intros H. repeat split; [ auto | discriminate | discriminate ]. }
    destruct (String.eqb_spec (crisis_type v) "self_harm_risk") as [E2|N2].
    { rewrite getitem_ok, E2. split; [ | tauto ].
      intros H. repeat split; [ discriminate | auto | discriminate ]. }
    destruct (String.eqb_spec (crisis_type v) "substance_abuse") as [E3|N3].
    { rewrite getitem_ok, E3. split; [ | tauto ].
      intros H. repeat split; [ discriminate | discriminate | auto ]. }
    split; [ intros _; repeat split; intros; congruence | eauto ]. }
  split.
  - intros [r H].
    destruct (base_response_of prompts (crisis_type v)) as [b|e] eqn:Eb;
      [ | discriminate H ].
    destruct (_get_cultural_crisis_support prompts (crisis_type v))
      as [s|e] eqn:Ec;
      [ | destruct (threshold "high" <=? crisis_level v); discriminate H ].
    split; [ apply Hcult; eauto | apply Hbase; eauto ].
  - intros (Hc & Hb).
    apply Hcult in Hc as [s Hs]. apply Hbase in Hb as [b Hb].
    rewrite Hb, Hs. destruct (threshold "high" <=? crisis_level v); eauto.
Qed.

(** ** Session safety report *)

Lemma fold_max_bounds (rest : list Z) :
  forall x,
    x <= fold_left Z.max rest x
    /\ Forall (fun y => y <= fold_left Z.max rest x) rest
    /\ In (fold_left Z.max rest x) (x :: rest).
Proof.
  induction rest as [|y rest IH]; intros x; cbn [fold_left].
  - split; [ lia | ]. split; [ constructor | now left ].
  - destruct (IH (Z.max x y)) as (H1 & H2 & H3).
    split; [ lia | ]. split.
    + constructor; [ lia | exact H2 ].
    + destruct H3 as [H3 | H3].
      * rewrite <- H3.
        destruct (Z.max_spec x y) as [[_ ->] | [_ ->]];
          [ right; now left | now left ].
      * right. now right.
Qed.

Lemma max_default_bounds (xs : list Z) (d : Z) :
  Forall (fun x => x <= max_default xs d) xs
  /\ (xs <> [] -> In (max_default xs d) xs).
Proof.
  destruct xs as [|x rest]; cbn [max_default].
  - split; [ constructor | congruence ].
  - destruct (fold_max_bounds rest x) as (H1 & H2 & H3).
    split; [ constructor; assumption | intros _; exact H3 ].
Qed.

(** When the export succeeds and carries no "error" key, the report is a
    summary in which follow-up is required exactly when the session has
    at least one crisis event (the test on the events' levels adds
    nothing), the interventions are a part of the events, the highest
    level bounds every event's level and is one of them (0 without
    events), and the recommendations are never empty. *)
Theorem safety_report_summary :
  forall (session_data : SessionData) (session_id : string),
    sd_error session_data = None ->
    let events := default [] (sd_crisis_events session_data) in
    exists s,
      generate_safety_report (Ok session_data) session_id = ReportSummary s
      /\ total_crisis_events s = len events
      /\ summary_follow_up_required s = (0 <? total_crisis_events s)
      /\ 0 <= interventions_applied s <= total_crisis_events s
      /\ Forall (fun event => level_of_row event <= highest_crisis_level s)
           events
      /\ match events with
         | [] => highest_crisis_level s = 0
         | _ :: _ => In (highest_crisis_level s) (map level_of_row events)
         end
      /\ safety_recommendations s <> [].
Proof.
  intros session_data session_id Herr events.
  unfold generate_safety_report. rewrite Herr. fold events.
  eexists. split; [ reflexivity | ].
  cbn [total_crisis_events summary_follow_up_required interventions_applied
       highest_crisis_level safety_recommendations].
  destruct (max_default_bounds (map level_of_row events) 0) as [Hub Hin].
  split; [ reflexivity | ]. split; [ | split; [ | split; [ | split ] ] ].
  - destruct events as [|event rest]; [ reflexivity | ].
    replace (0 <? len (event :: rest)) with true; [ reflexivity | ].
    symmetry. apply Z.ltb_lt. unfold len. cbn [length]. lia.
  - unfold len.
    pose proof (List.filter_length_le escalated_of_row events). lia.
  - apply List.Forall_forall. intros event Hevent.
    rewrite List.Forall_forall in Hub. apply Hub. now apply in_map.
  - destruct events as [|event rest]; [ reflexivity | ].
    apply Hin. discriminate.
  - unfold _generate_session_safety_recommendations.
    destruct events as [|event rest]; [ discriminate | ].
    repeat match goal with |- context [if ?b then _ else _] =>
      destruct b end; discriminate.
Qed.

Lemma safety_report_summary_witness :
  exists s,
    generate_safety_report
      (Ok {| sd_error := None;
             sd_crisis_events :=
               Some [{| row_crisis_level := Some 3; row_crisis_type := None;
                        row_escalated := None |}];
             sd_interactions := None |}) "s1" = ReportSummary s
    /\ summary_follow_up_required s = true.
Proof.
  destruct (safety_report_summary
              {| sd_error := None;
                 sd_crisis_events :=
                   Some [{| row_crisis_level := Some 3; row_crisis_type := None;
                            row_escalated := None |}];
                 sd_interactions := None |} "s1" eq_refl)
    as (s & Hs & Ht & Hf & _).
  exists s. split; [ exact Hs | ].
  rewrite Hf, Ht. reflexivity.
Defined.










